(** * Deimos router service (mcp-server/src/services/deimos.ts)

    A shallow embedding of the TypeScript class [DeimosRouter] and of the
    three convenience entry points of the module, followed by the properties
    of the routing / execution / fallback contract.

    Modelling choices.
    - JavaScript values that reach the code untyped (parsed JSON, the
      credential fields) are terms of [value]; numbers are IEEE 754 binary64
      floats, as in the language.
    - Strings are sequences of code units, one [ascii] per unit.
    - The methods are asynchronous but sequential: inside them every
      promise is awaited at once, so [await] is plain sequencing in a
      state-and-exception monad [M].  The one promise that is never awaited,
      the constructor's call of [loadCredentials], is kept in a [Run], see
      [construct_and_route].
    - The file system, the process environment and the network are a [Host]:
      the code only observes them through [readFile], [process.env] and
      [fetch]. *)

From Stdlib Require Import String Ascii List Bool NArith Floats DecimalString.
From Stdlib Require Import PeanoNat.
Import ListNotations.
Open Scope string_scope.

Set Warnings "-inexact-float,-register-all".

(** ** JavaScript values *)

Inductive value : Type :=
| VUndefined
| VNull
| VBool (b : bool)
| VNum (x : float)
| VStr (s : string)
| VArr (elems : list value)
| VObj (props : list (string * value)).

(** Thrown values.  Everything this module throws or sees thrown is an
    [Error] object: [new Error(msg)], the [TypeError] of a property read on
    [null] or [undefined], the rejection of [fetch] or of [response.json()]. *)
Record error : Type := mkError { name : string; message : string }.

Definition Error (msg : string) : error := mkError "Error" msg.
Definition TypeError (msg : string) : error := mkError "TypeError" msg.

(** [Error.prototype.toString]: what a template literal prints for an error. *)
Definition error_toString (e : error) : string :=
  if String.eqb (name e) "" then message e
  else if String.eqb (message e) "" then name e
  else name e ++ ": " ++ message e.

(** ToBoolean. *)
Definition number_truthy (x : float) : bool :=
  negb (PrimFloat.eqb x 0%float || PrimFloat.is_nan x).

Definition truthy (v : value) : bool :=
  match v with
  | VUndefined | VNull => false
  | VBool b => b
  | VNum x => number_truthy x
  | VStr s => negb (String.eqb s "")
  | VArr _ | VObj _ => true
  end.

Fixpoint lookup (k : string) (props : list (string * value)) : value :=
  match props with
  | [] => VUndefined
  | (k', v) :: rest => if String.eqb k k' then v else lookup k rest
  end.

Definition describe (v : value) : string :=
  match v with VNull => "null" | _ => "undefined" end.

(** [v.k] for a property name [k] that is neither an index nor [length]:
    a [TypeError] on [null] and [undefined], the property of an object,
    [undefined] on every other value. *)
Definition get_prop (v : value) (k : string) : error + value :=
  match v with
  | VUndefined | VNull =>
      inl (TypeError ("Cannot read properties of " ++ describe v
                      ++ " (reading '" ++ k ++ "')"))
  | VObj props => inr (lookup k props)
  | _ => inr VUndefined
  end.

(** [v[0]]. *)
Definition get_first (v : value) : error + value :=
  match v with
  | VUndefined | VNull =>
      inl (TypeError ("Cannot read properties of " ++ describe v
                      ++ " (reading '0')"))
  | VArr elems => inr (nth 0 elems VUndefined)
  | VStr s => inr (match s with
                   | EmptyString => VUndefined
                   | String c _ => VStr (String c EmptyString)
                   end)
  | VObj props => inr (lookup "0" props)
  | _ => inr VUndefined
  end.

(** [obj.k = v] on an object literal: the property is replaced in place when
    it exists and appended otherwise. *)
Fixpoint set_prop (k : string) (v : value) (props : list (string * value))
  : list (string * value) :=
  match props with
  | [] => [(k, v)]
  | (k', v') :: rest =>
      if String.eqb k k' then (k, v) :: rest else (k', v') :: set_prop k v rest
  end.

(** ** The host: file system, environment, network *)

Record Request : Type := mkRequest {
  url : string;
  method : string;
  headers : list (string * string);
  body : value
}.

(** A [Response] of [fetch]: its status, what [text()] resolves to and what
    [json()] resolves to or rejects with. *)
Record Response : Type := mkResponse {
  status : N;
  text : string;
  json : error + value
}.

Definition ok (r : Response) : bool :=
  (200 <=? status r)%N && (status r <=? 299)%N.

Record Host : Type := mkHost {
  cwd : string;
  homedir : string;
  (** [JSON.parse(await readFile(path, 'utf-8'))]; [None] when the file
      cannot be read or its content is not JSON. *)
  readJSON : string -> option value;
  (** [process.env]. *)
  env : string -> option string;
  (** [fetch], which may answer by the requests already sent; [inl] is a
      rejected promise (no connection, bad URL). *)
  fetch : list Request -> Request -> error + Response;
  (** [Number.prototype.toString]. *)
  Number_toString : float -> string
}.

(** [path.join(dir, file)] for an absolute [dir] and a plain file name. *)
Definition ends_with_slash (s : string) : bool :=
  match String.get (String.length s - 1) s with
  | Some c => Ascii.eqb c "/"
  | None => false
  end.

Definition join (dir file : string) : string :=
  if ends_with_slash dir then dir ++ file else dir ++ "/" ++ file.

(** Whether an object has an own property [k]. *)
Definition has_own (k : string) (props : list (string * value)) : bool :=
  existsb (fun p => String.eqb k (fst p)) props.

Definition unprintable : error :=
  TypeError "Cannot convert object to primitive value".

Section Printing.
Variable h : Host.

(** ToString, as applied by a template literal.  The values are parsed JSON,
    so no property is a function: an object with an own [toString] property
    cannot be converted and the conversion throws; any other object prints
    through [Object.prototype.toString].  An array prints by [join], which
    converts its elements from the left and prints [null] and [undefined] as
    the empty string. *)
Fixpoint toString (v : value) : error + string :=
  match v with
  | VUndefined => inr "undefined"
  | VNull => inr "null"
  | VBool true => inr "true"
  | VBool false => inr "false"
  | VNum x => inr (Number_toString h x)
  | VStr s => inr s
  | VArr elems =>
      (fix joined (l : list value) : error + string :=
         match l with
         | [] => inr ""
         | x :: rest =>
             match (match x with
                    | VUndefined | VNull => inr ""
                    | _ => toString x
                    end) with
             | inl e => inl e
             | inr sx =>
                 match rest with
                 | [] => inr sx
                 | _ :: _ =>
                     match joined rest with
                     | inl e => inl e
                     | inr sr => inr (sx ++ "," ++ sr)
                     end
                 end
             end
         end) elems
  | VObj props =>
      if has_own "toString" props then inl unprintable else inr "[object Object]"
  end.
End Printing.

(** The JSON document that [JSON.stringify] writes for a value: properties
    whose value is [undefined] are left out, [undefined] array elements and
    numbers that are not finite become [null], a zero of either sign is
    written [0].  The document is kept as a tree; its text is not needed. *)
Definition is_finite (x : float) : bool :=
  negb (PrimFloat.is_nan x || PrimFloat.is_infinity x).

Fixpoint JSON_stringify (v : value) : value :=
  match v with
  | VNum x =>
      if is_finite x
      then (if PrimFloat.eqb x 0%float then VNum 0%float else VNum x)
      else VNull
  | VArr elems =>
      VArr (map (fun x => match x with
                          | VUndefined => VNull
                          | _ => JSON_stringify x
                          end) elems)
  | VObj props =>
      VObj ((fix members (l : list (string * value)) : list (string * value) :=
               match l with
               | [] => []
               | (_, VUndefined) :: rest => members rest
               | (k, x) :: rest => (k, JSON_stringify x) :: members rest
               end) props)
  | _ => v
  end.

Definition decimal (n : N) : string := NilZero.string_of_uint (N.to_uint n).

(** ** The state-and-exception monad *)

(** What a run can change: the two private fields of the router, the
    requests sent so far (oldest first) and the lines written by
    [console.error]. *)
Record State : Type := mkState {
  apiUrl : value;
  apiKey : value;
  sent : list Request;
  console : list (string * error)
}.

Inductive outcome (A : Type) : Type :=
| Return (a : A)
| Throw (e : error).
Arguments Return {A} a.
Arguments Throw {A} e.

Definition M (A : Type) : Type := State -> outcome A * State.

Definition ret {A} (a : A) : M A := fun st => (Return a, st).

Definition throw {A} (e : error) : M A := fun st => (Throw e, st).

Definition bind {A B} (m : M A) (f : A -> M B) : M B :=
  fun st =>
    match m st with
    | (Return a, st') => f a st'
    | (Throw e, st') => (Throw e, st')
    end.

(** [try { m } catch (error) { handler error }]: the handler starts from the
    state the body left behind. *)
Definition try_catch {A} (m : M A) (handler : error -> M A) : M A :=
  fun st =>
    match m st with
    | (Return a, st') => (Return a, st')
    | (Throw e, st') => handler e st'
    end.

Definition lift {A} (r : error + A) : M A :=
  match r with inl e => throw e | inr a => ret a end.

Definition get_state : M State := fun st => (Return st, st).

Definition set_apiUrl (v : value) : M unit :=
  fun st => (Return tt, mkState v (apiKey st) (sent st) (console st)).

Definition set_apiKey (v : value) : M unit :=
  fun st => (Return tt, mkState (apiUrl st) v (sent st) (console st)).

Definition console_error (label : string) (e : error) : M unit :=
  fun st => (Return tt,
             mkState (apiUrl st) (apiKey st) (sent st) (console st ++ [(label, e)])).

Declare Scope js_scope.
Delimit Scope js_scope with js.
Notation "x <- m ;; k" := (bind m (fun x => k))
  (at level 61, m at next level, right associativity) : js_scope.
Notation "m ;; k" := (bind m (fun _ => k))
  (at level 61, right associativity) : js_scope.
Open Scope js_scope.

(** ** The data model of the module *)

Inductive TaskType : Type :=
| ANALYSIS
| SUMMARIZATION
| CODE_GENERATION
| CLASSIFICATION
| EXTRACTION.

Definition TaskType_value (t : TaskType) : string :=
  match t with
  | ANALYSIS => "analysis"
  | SUMMARIZATION => "summarization"
  | CODE_GENERATION => "code_generation"
  | CLASSIFICATION => "classification"
  | EXTRACTION => "extraction"
  end.

(** A request is built by typed callers: its fields have their declared
    types, an optional field that is left out is [None]. *)
Record RoutingRequest : Type := mkRoutingRequest {
  taskType : TaskType;
  prompt : string;
  context : option string;
  maxTokens : option float;
  temperature : option float;
  costPriority : option float
}.

(** The fields of a response are copied from parsed JSON without a check, so
    they are values. *)
Record RoutingResponse : Type := mkRoutingResponse {
  selectedModel : value;
  estimatedCost : value;
  confidence : value;
  reasoning : value;
  response : value
}.

Definition of_string (o : option string) : value :=
  match o with Some s => VStr s | None => VUndefined end.

Definition of_number (o : option float) : value :=
  match o with Some x => VNum x | None => VUndefined end.

(** [a ?? b]. *)
Definition nullish (a b : value) : value :=
  match a with VUndefined | VNull => b | _ => a end.

Definition newline : string := String (ascii_of_nat 10) EmptyString.

(** [s.substring(0, n)]. *)
Definition substring_to (n : nat) (s : string) : string := String.substring 0 n s.

(** ** DeimosRouter *)

Module DeimosRouter.
Section Router.
Variable h : Host.

(** [fetch(target, { method: 'POST', headers, body: JSON.stringify(payload) })]:
    the request it sends, and the call awaited. *)
Definition POST (target : string) (hdrs : list (string * string)) (payload : value)
  : Request :=
  mkRequest target "POST" hdrs (JSON_stringify payload).

Definition record_sent (rq : Request) (st : State) : State :=
  mkState (apiUrl st) (apiKey st) (sent st ++ [rq]) (console st).

Definition send (rq : Request) : M Response :=
  fun st =>
    match fetch h (sent st) rq with
    | inl e => (Throw e, record_sent rq st)
    | inr r => (Return r, record_sent rq st)
    end.

Definition bearer (key : string) : list (string * string) :=
  [("Authorization", "Bearer " ++ key); ("Content-Type", "application/json")].

(** The object literal [headers]; the template literal for the key may
    throw. *)
Definition authHeaders : M (list (string * string)) :=
  st <- get_state ;;
  key <- lift (toString h (apiKey st)) ;;
  ret (bearer key).

(** The template literal [`${this.apiUrl}path`]. *)
Definition endpoint (path : string) : M string :=
  st <- get_state ;;
  base <- lift (toString h (apiUrl st)) ;;
  ret (base ++ path).

Definition projectSecretsPath : string := join (cwd h) "secrets.json".
Definition homeSecretsPath : string := join (homedir h) "secrets.json".

(** One of the two inner [try] blocks of [loadCredentials]: read and parse
    the file, copy the two fields, and tell whether the block reached
    its [return] ([true]) or was left through its empty [catch]. *)
Definition trySecretsFile (path : string) : M bool :=
  try_catch
    (secrets <- lift (match readJSON h path with
                      | Some v => inr v
                      | None => inl (Error ("cannot load " ++ path)) (* swallowed below *)
                      end) ;;
     u <- lift (get_prop secrets "api_url") ;;
     set_apiUrl u ;;
     k <- lift (get_prop secrets "api_key") ;;
     set_apiKey k ;;
     ret true)
    (fun _ => ret false).

Definition CredentialsNotFound : error :=
  Error ("Deimos API credentials not found. Please set up credentials via:" ++ newline ++
         "1. secrets.json file in project root" ++ newline ++
         "2. DEIMOS_API_URL and DEIMOS_API_KEY environment variables" ++ newline ++
         "3. secrets.json file in home directory").

Definition loadCredentials : M unit :=
  try_catch
    (found <- trySecretsFile projectSecretsPath ;;
     if found then ret tt
     else
       set_apiUrl (of_string (env h "DEIMOS_API_URL")) ;;
       set_apiKey (of_string (env h "DEIMOS_API_KEY")) ;;
       st <- get_state ;;
       if truthy (apiUrl st) && truthy (apiKey st) then ret tt
       else
         found' <- trySecretsFile homeSecretsPath ;;
         if found' then ret tt
         else throw CredentialsNotFound)
    (fun error =>
       console_error "Failed to load Deimos credentials:" error ;;
       throw error).

Definition fullPrompt (prompt : string) (context : option string) : string :=
  match context with
  | Some c =>
      if truthy (VStr c)
      then "Context: " ++ c ++ newline ++ newline ++ "Task: " ++ prompt
      else prompt
  | None => prompt
  end.

Definition llmPayload (model : value) (prompt : string) (context : option string)
           (maxTokens temperature : option float) : value :=
  let p0 := [("model", model);
             ("messages", VArr [VObj [("role", VStr "user");
                                      ("content", VStr (fullPrompt prompt context))]])] in
  let p1 := if truthy (of_number maxTokens)
            then set_prop "max_tokens" (of_number maxTokens) p0 else p0 in
  let p2 := match temperature with
            | Some t => set_prop "temperature" (VNum t) p1
            | None => p1
            end in
  VObj p2.

Definition executeLLMCall (model : value) (prompt : string) (context : option string)
           (maxTokens temperature : option float) : M value :=
  hdrs <- authHeaders ;;
  target <- endpoint "/chat/completions" ;;
  r <- send (POST target hdrs
                  (llmPayload model prompt context maxTokens temperature)) ;;
  if negb (ok r)
  then throw (Error ("LLM API error " ++ decimal (status r) ++ ": " ++ text r))
  else
    result <- lift (json r) ;;
    choices <- lift (get_prop result "choices") ;;
    choice <- lift (get_first choices) ;;
    msg <- lift (get_prop choice "message") ;;
    lift (get_prop msg "content").

Definition placeholder (request : RoutingRequest) : string :=
  "Error processing request: " ++ substring_to 100 (prompt request) ++ "...".

Definition fallbackRequest (request : RoutingRequest) : M value :=
  try_catch
    (executeLLMCall (VStr "gpt-3.5-turbo") (prompt request) (context request)
                    (maxTokens request) (temperature request))
    (fun _ => ret (VStr (placeholder request))).

Definition routePayload (request : RoutingRequest) : value :=
  VObj [("task_type", VStr (TaskType_value (taskType request)));
        ("prompt", VStr (prompt request));
        ("context", of_string (context request));
        ("preferences",
         VObj [("cost_priority",
                nullish (of_number (costPriority request)) (VNum 0.7%float));
               ("max_tokens", of_number (maxTokens request));
               ("temperature", of_number (temperature request))])].

(** The guard of the first statement of [routeRequest]. *)
Definition needsCredentials (st : State) : bool :=
  negb (truthy (apiUrl st)) || negb (truthy (apiKey st)).

(** The first statement of [routeRequest]. *)
Definition ensureCredentials : M unit :=
  st <- get_state ;;
  if needsCredentials st
  then loadCredentials
  else ret tt.

(** The body of the [try] block of [routeRequest]; [hdrs] is the constant
    [headers], built before the block. *)
Definition routeAndExecute (request : RoutingRequest) (hdrs : list (string * string))
  : M RoutingResponse :=
  target <- endpoint "/route" ;;
  r <- send (POST target hdrs (routePayload request)) ;;
  if negb (ok r)
  then throw (Error ("Deimos API error " ++ decimal (status r) ++ ": " ++ text r))
  else
    result <- lift (json r) ;;
    selected_model <- lift (get_prop result "selected_model") ;;
    llmResponse <- executeLLMCall selected_model (prompt request) (context request)
                                  (maxTokens request) (temperature request) ;;
    selected_model' <- lift (get_prop result "selected_model") ;;
    estimated_cost <- lift (get_prop result "estimated_cost") ;;
    confidence <- lift (get_prop result "confidence") ;;
    reasoning <- lift (get_prop result "reasoning") ;;
    ret (mkRoutingResponse
           selected_model'
           (nullish estimated_cost (VNum 0.0%float))
           (nullish confidence (VNum 1.0%float))
           (nullish reasoning (VStr "Model selected by Deimos Router"))
           llmResponse).

(** The [catch] block of [routeRequest]. *)
Definition fallbackResponse (request : RoutingRequest) (error : error)
  : M RoutingResponse :=
  fallbackText <- fallbackRequest request ;;
  ret (mkRoutingResponse
         (VStr "gpt-3.5-turbo")
         (VNum 0.001%float)
         (VNum 0.5%float)
         (VStr ("Fallback due to routing error: " ++ error_toString error))
         fallbackText).

(** [routeRequest] from its second statement on: the payload and the
    headers, then the [try] block and its [catch]. *)
Definition routeWithCredentials (request : RoutingRequest) : M RoutingResponse :=
  hdrs <- authHeaders ;;
  try_catch (routeAndExecute request hdrs) (fallbackResponse request).

Definition routeRequest (request : RoutingRequest) : M RoutingResponse :=
  ensureCredentials ;;
  routeWithCredentials request.

End Router.
End DeimosRouter.

(** ** Construction and the convenience entry points *)

(** The fields of a router before any assignment: both unset. *)
Definition new_DeimosRouter : State := mkState VUndefined VUndefined [] [].

(** How a call ends that started a promise nobody awaits: how the promise
    it returned settles, the state left, and the rejections no handler
    takes.  What the runtime does with an unhandled rejection is not the
    module's business: a Node process without a handler ends on the first
    one, and [settled] is then never seen. *)
Record Run (A : Type) : Type := mkRun {
  settled : outcome A;
  final : State;
  unhandled : list error
}.
Arguments mkRun {A} settled final unhandled.
Arguments settled {A} r.
Arguments final {A} r.
Arguments unhandled {A} r.

Definition rejection {A} (o : outcome A) : list error :=
  match o with Throw e => [e] | Return _ => [] end.

(** [const router = new DeimosRouter(); return await router.routeRequest(request)].
    The constructor calls [loadCredentials] and drops the promise; the call
    of [routeRequest] follows in the same turn, so its guard sees the fields
    still unset and calls [loadCredentials] a second time.  The two calls
    then read the same files in the same order; the constructor's call,
    started first, is taken to stay ahead, so that its writes and its
    console line come first.  Its rejection, if any, is unhandled. *)
Definition construct_and_route (h : Host) (request : RoutingRequest)
  : Run RoutingResponse :=
  let fresh := new_DeimosRouter in
  let guard := DeimosRouter.needsCredentials fresh in
  let (started, st0) := DeimosRouter.loadCredentials h fresh in
  let (result, st) :=
    bind (if guard then DeimosRouter.loadCredentials h else ret tt)
         (fun _ => DeimosRouter.routeWithCredentials h request) st0 in
  mkRun result st (rejection started).

(** A parameter with a default value takes it when the argument is left out. *)
Definition default (d : float) (arg : option float) : float :=
  match arg with Some x => x | None => d end.

Definition analysisRequest (prompt : string) (context : option string)
           (costPriority : option float) : RoutingRequest :=
  mkRoutingRequest ANALYSIS prompt context
    (Some 2000%float) (Some 0.3%float) (Some (default 0.7%float costPriority)).

Definition summarizationRequest (prompt : string) (context : option string)
           (costPriority : option float) : RoutingRequest :=
  mkRoutingRequest SUMMARIZATION prompt context
    (Some 1000%float) (Some 0.2%float) (Some (default 0.8%float costPriority)).

Definition classificationRequest (prompt : string) (context : option string)
           (costPriority : option float) : RoutingRequest :=
  mkRoutingRequest CLASSIFICATION prompt context
    (Some 500%float) (Some 0.1%float) (Some (default 0.9%float costPriority)).

Definition routeAnalysisRequest (h : Host) (prompt : string) (context : option string)
           (costPriority : option float) : Run RoutingResponse :=
  construct_and_route h (analysisRequest prompt context costPriority).

Definition routeSummarizationRequest (h : Host) (prompt : string)
           (context : option string) (costPriority : option float)
  : Run RoutingResponse :=
  construct_and_route h (summarizationRequest prompt context costPriority).

Definition routeClassificationRequest (h : Host) (prompt : string)
           (context : option string) (costPriority : option float)
  : Run RoutingResponse :=
  construct_and_route h (classificationRequest prompt context costPriority).

(** ** Vocabulary of the statements *)

Import DeimosRouter.

(** [s.includes(sub)]. *)
Definition includes (s sub : string) : bool :=
  match String.index 0 sub s with Some _ => true | None => false end.

(** What a secrets file at [path] yields: the two fields of the parsed
    document, unless the file cannot be read or parsed or the document is
    [null] (the property reads then throw into the empty [catch]). *)
Definition secrets_in (h : Host) (path : string) : option (value * value) :=
  match readJSON h path with
  | Some v =>
      match get_prop v "api_url", get_prop v "api_key" with
      | inr u, inr k => Some (u, k)
      | _, _ => None
      end
  | None => None
  end.

Definition with_credentials (u k : value) (st : State) : State :=
  mkState u k (sent st) (console st).

Definition with_sent (l : list Request) (st : State) : State :=
  mkState (apiUrl st) (apiKey st) l (console st).

Definition logged (label : string) (e : error) (st : State) : State :=
  mkState (apiUrl st) (apiKey st) (sent st) (console st ++ [(label, e)]).

Definition env_url (h : Host) : value := of_string (env h "DEIMOS_API_URL").
Definition env_key (h : Host) : value := of_string (env h "DEIMOS_API_KEY").

(** The routing request, for the strings [base] and [key] the two
    credentials print as. *)
Definition routeMessage (base key : string) (request : RoutingRequest) : Request :=
  POST (base ++ "/route") (bearer key) (routePayload request).

(** The completion request for [model]. *)
Definition completionMessage (base key : string) (model : value)
           (request : RoutingRequest) : Request :=
  POST (base ++ "/chat/completions") (bearer key)
       (llmPayload model (prompt request) (context request)
                   (maxTokens request) (temperature request)).

Definition execute (h : Host) (model : value) (request : RoutingRequest) : M value :=
  executeLLMCall h model (prompt request) (context request)
                 (maxTokens request) (temperature request).

(** [result.choices[0].message.content]. *)
Definition read_content (result : value) : error + value :=
  match get_prop result "choices" with
  | inl e => inl e
  | inr choices =>
      match get_first choices with
      | inl e => inl e
      | inr choice =>
          match get_prop choice "message" with
          | inl e => inl e
          | inr msg => get_prop msg "content"
          end
      end
  end.

(** What [executeLLMCall] makes of the answer of [fetch]. *)
Definition completionResult (answer : error + Response) : outcome value :=
  match answer with
  | inl e => Throw e
  | inr r =>
      if negb (ok r)
      then Throw (Error ("LLM API error " ++ decimal (status r) ++ ": " ++ text r))
      else match json r with
           | inl e => Throw e
           | inr result =>
               match read_content result with
               | inl e => Throw e
               | inr content => Return content
               end
           end
  end.

(** The stages at which the [try] block of [routeRequest], entered in state
    [st] with the headers of [key], can fail, with the error thrown and the
    state left behind. *)
Inductive route_execute_failure (h : Host) (request : RoutingRequest) (key : string)
          (st : State) : error -> State -> Prop :=
| routing_url_unprintable e :
    toString h (apiUrl st) = inl e ->
    route_execute_failure h request key st e st
| routing_call_rejected base e :
    toString h (apiUrl st) = inr base ->
    fetch h (sent st) (routeMessage base key request) = inl e ->
    route_execute_failure h request key st e
      (record_sent (routeMessage base key request) st)
| routing_status_not_ok base r :
    toString h (apiUrl st) = inr base ->
    fetch h (sent st) (routeMessage base key request) = inr r ->
    ok r = false ->
    route_execute_failure h request key st
      (Error ("Deimos API error " ++ decimal (status r) ++ ": " ++ text r))
      (record_sent (routeMessage base key request) st)
| routing_body_not_json base r e :
    toString h (apiUrl st) = inr base ->
    fetch h (sent st) (routeMessage base key request) = inr r ->
    ok r = true ->
    json r = inl e ->
    route_execute_failure h request key st e
      (record_sent (routeMessage base key request) st)
| routing_decision_unreadable base r result e :
    toString h (apiUrl st) = inr base ->
    fetch h (sent st) (routeMessage base key request) = inr r ->
    ok r = true ->
    json r = inr result ->
    get_prop result "selected_model" = inl e ->
    route_execute_failure h request key st e
      (record_sent (routeMessage base key request) st)
| execution_failed base r result model e st' :
    toString h (apiUrl st) = inr base ->
    fetch h (sent st) (routeMessage base key request) = inr r ->
    ok r = true ->
    json r = inr result ->
    get_prop result "selected_model" = inr model ->
    execute h model request (record_sent (routeMessage base key request) st)
    = (Throw e, st') ->
    route_execute_failure h request key st e st'.

Definition selectedModel_of (o : outcome RoutingResponse) : option value :=
  match o with Return r => Some (selectedModel r) | Throw _ => None end.

Definition decision_of (o : outcome RoutingResponse)
  : option (value * value * value * value) :=
  match o with
  | Return r => Some (selectedModel r, estimatedCost r, confidence r, reasoning r)
  | Throw _ => None
  end.

(** Whether an object has a property [k] ([k in v]). *)
Definition has_prop (k : string) (v : value) : bool :=
  match v with
  | VObj props => existsb (fun p => String.eqb k (fst p)) props
  | _ => false
  end.

(** [payload.messages[0].content]. *)
Definition first_message_content (payload : value) : error + value :=
  match get_prop payload "messages" with
  | inr ms =>
      match get_first ms with
      | inr m => get_prop m "content"
      | inl e => inl e
      end
  | inl e => inl e
  end.

(** [payload.preferences.k]. *)
Definition preference (k : string) (payload : value) : error + value :=
  match get_prop payload "preferences" with
  | inr p => get_prop p k
  | inl e => inl e
  end.

Definition provided {A} (o : option A) : bool :=
  match o with Some _ => true | None => false end.

(** The decision part of a response. *)
Definition decision (r : RoutingResponse) : value * value * value * value :=
  (selectedModel r, estimatedCost r, confidence r, reasoning r).

Definition fallbackDecision (e : error) : value * value * value * value :=
  (VStr "gpt-3.5-turbo", VNum 0.001%float, VNum 0.5%float,
   VStr ("Fallback due to routing error: " ++ error_toString e)).

(** [v.k] where the read cannot throw. *)
Definition field (v : value) (k : string) : value :=
  match get_prop v k with inr x => x | inl _ => VUndefined end.

(** The object returned at the end of the [try] block of [routeRequest],
    for the parsed decision [result] and the completion text. *)
Definition remoteResponse (result llmResponse : value) : RoutingResponse :=
  mkRoutingResponse
    (field result "selected_model")
    (nullish (field result "estimated_cost") (VNum 0.0%float))
    (nullish (field result "confidence") (VNum 1.0%float))
    (nullish (field result "reasoning") (VStr "Model selected by Deimos Router"))
    llmResponse.

Definition fallbackModel : value := VStr "gpt-3.5-turbo".

(** Whether [payload.preferences] has a property [k]. *)
Definition has_preference (k : string) (payload : value) : bool :=
  match get_prop payload "preferences" with
  | inr p => has_prop k p
  | inl _ => false
  end.


Definition credentials_set (st : State) : bool :=
  truthy (apiUrl st) && truthy (apiKey st).

Definition throws {A} (o : outcome A) : bool :=
  match o with Throw _ => true | Return _ => false end.

(** The requests a run added to the log that started as [before]. *)
Definition added (before after : list Request) : list Request :=
  skipn (List.length before) after.

(** ** Example hosts *)

Module Examples.

(** A stand-in for the printing of numbers: the credentials of the hosts
    below are strings, objects or unset, so no run on them prints a
    number. *)
Definition print_number (x : float) : string :=
  if PrimFloat.is_nan x then "NaN" else "0".

Definition base : string := "https://deimos.test".

Definition env_set (k : string) : option string :=
  if String.eqb k "DEIMOS_API_URL" then Some base
  else if String.eqb k "DEIMOS_API_KEY" then Some "sk-test"
  else None.

Definition no_file (path : string) : option value := None.
Definition no_env (k : string) : option string := None.
Definition offline (hist : list Request) (rq : Request) : error + Response :=
  inl (TypeError "fetch failed").

(** Nothing configured: no secrets file, no variable, no network. *)
Definition bare : Host :=
  mkHost "/srv/app" "/home/dev" no_file no_env offline print_number.

(** Credentials in the environment; every endpoint answers [code] with
    the text [msg]. *)
Definition failing (code : N) (msg : string) : Host :=
  mkHost "/srv/app" "/home/dev" no_file env_set
         (fun _ _ => inr (mkResponse code msg (inl (mkError "SyntaxError" "Unexpected token"))))
         print_number.

Definition completion (content : value) : value :=
  VObj [("choices", VArr [VObj [("message", VObj [("role", VStr "assistant");
                                                  ("content", content)])]])].

(** Credentials in the environment; the routing endpoint answers 200 with
    the document [decision], the completion endpoint answers by [llm]. *)
Definition routed (decision : value) (llm : error + Response) : Host :=
  mkHost "/srv/app" "/home/dev" no_file env_set
         (fun _ rq =>
            if String.eqb (url rq) (base ++ "/route")
            then inr (mkResponse 200 "" (inr decision))
            else llm)
         print_number.

(** A project secrets file holding the document [doc]; variables set. *)
Definition with_project_file (doc : value) : Host :=
  mkHost "/srv/app" "/home/dev"
         (fun path => if String.eqb path "/srv/app/secrets.json" then Some doc else None)
         env_set offline print_number.

(** Credentials in the environment, no network. *)
Definition offline_host : Host :=
  mkHost "/srv/app" "/home/dev" no_file env_set offline print_number.

(** The routing endpoint selects [gpt-4o]; the completion endpoint is
    down. *)
Definition completions_down : Host :=
  routed (VObj [("selected_model", VStr "gpt-4o")])
         (inr (mkResponse 503 "overloaded"
                          (inl (mkError "SyntaxError" "Unexpected token")))).

Definition long_prompt : string :=
  "0123456789012345678901234567890123456789012345678901234567890123456789012345678901234567890123456789ABCDEFGHIJ".

Definition ask (p : string) : RoutingRequest :=
  mkRoutingRequest ANALYSIS p None None None None.

(** Credentials only in the home secrets file; the variable for the URL is
    set but empty. *)
Definition blank_url_host : Host :=
  mkHost "/srv/app" "/home/dev"
         (fun path =>
            if String.eqb path "/home/dev/secrets.json"
            then Some (VObj [("api_url", VStr "https://home.test");
                             ("api_key", VStr "sk-home")])
            else None)
         (fun k =>
            if String.eqb k "DEIMOS_API_URL" then Some ""
            else if String.eqb k "DEIMOS_API_KEY" then Some "sk-test"
            else None)
         offline print_number.

(** Only the variable for the URL is set; no secrets file, no network. *)
Definition url_only_host : Host :=
  mkHost "/srv/app" "/home/dev" no_file
         (fun k => if String.eqb k "DEIMOS_API_URL" then Some base else None)
         offline print_number.

(** A full decision of the routing endpoint, with a confidence of zero and
    no reasoning. *)
Definition decision_doc : value :=
  VObj [("selected_model", VStr "gpt-4o");
        ("estimated_cost", VNum 0.02%float);
        ("confidence", VNum 0%float);
        ("reasoning", VNull)].

Definition credentialed : State :=
  mkState (VStr base) (VStr "sk-test") [] [].

(** A document with an own [toString] property, as
    [{ "toString": 1 }] parses. *)
Definition opaque_doc : value := VObj [("toString", VNum 1%float)].

(** A project secrets file whose [api_key] is such a document. *)
Definition opaque_key_host : Host :=
  with_project_file (VObj [("api_url", VStr base); ("api_key", opaque_doc)]).

(** A project secrets file whose [api_url] is such a document. *)
Definition opaque_url_host : Host :=
  with_project_file (VObj [("api_url", opaque_doc); ("api_key", VStr "sk-test")]).

End Examples.

(** * Properties *)

Section Credentials.
Variable h : Host.

Lemma trySecretsFile_found path st u k :
  secrets_in h path = Some (u, k) ->
  trySecretsFile h path st = (Return true, with_credentials u k st).
Proof.
  unfold secrets_in, trySecretsFile, try_catch, bind, lift.
  destruct (readJSON h path) as [v|]; [|discriminate].
  destruct v; cbn; try discriminate; intros [= <- <-]; reflexivity.
Qed.

Lemma trySecretsFile_missing path st :
  secrets_in h path = None ->
  trySecretsFile h path st = (Return false, st).
Proof.
  unfold secrets_in, trySecretsFile, try_catch, bind, lift.
  destruct (readJSON h path) as [v|]; [|reflexivity].
  destruct v; cbn; try discriminate; reflexivity.
Qed.

(** [loadCredentials] as a decision list over the three sources. *)
Lemma loadCredentials_cases st :
  loadCredentials h st =
    match secrets_in h (projectSecretsPath h) with
    | Some (u, k) => (Return tt, with_credentials u k st)
    | None =>
        if truthy (env_url h) && truthy (env_key h)
        then (Return tt, with_credentials (env_url h) (env_key h) st)
        else
          match secrets_in h (homeSecretsPath h) with
          | Some (u, k) => (Return tt, with_credentials u k st)
          | None =>
              (Throw CredentialsNotFound,
               logged "Failed to load Deimos credentials:" CredentialsNotFound
                      (with_credentials (env_url h) (env_key h) st))
          end
    end.
Proof.
  unfold loadCredentials, try_catch at 1. unfold bind at 1.
  destruct (secrets_in h (projectSecretsPath h)) as [[u k]|] eqn:Hp.
  - rewrite (trySecretsFile_found _ _ _ _ Hp). reflexivity.
  - rewrite (trySecretsFile_missing _ _ Hp).
    unfold bind at 1, set_apiUrl at 1. unfold bind at 1, set_apiKey at 1.
    unfold bind at 1, get_state at 1. cbn [apiUrl apiKey sent console].
    fold (env_url h) (env_key h).
    destruct (truthy (env_url h) && truthy (env_key h)); [reflexivity|].
    unfold bind at 1.
    destruct (secrets_in h (homeSecretsPath h)) as [[u k]|] eqn:Hh.
    + rewrite (trySecretsFile_found _ _ _ _ Hh). reflexivity.
    + rewrite (trySecretsFile_missing _ _ Hh). reflexivity.
Qed.

Lemma loadCredentials_throws st e st' :
  loadCredentials h st = (Throw e, st') -> e = CredentialsNotFound.
Proof.
  rewrite loadCredentials_cases.
  destruct (secrets_in h (projectSecretsPath h)) as [[? ?]|]; [discriminate|].
  destruct (truthy (env_url h) && truthy (env_key h)); [discriminate|].
  destruct (secrets_in h (homeSecretsPath h)) as [[? ?]|]; [discriminate|].
  intros [= <- _]. reflexivity.
Qed.

Lemma ensureCredentials_throws st e st' :
  ensureCredentials h st = (Throw e, st') -> e = CredentialsNotFound.
Proof.
  unfold ensureCredentials, bind, get_state.
  destruct (needsCredentials st).
  - apply loadCredentials_throws.
  - discriminate.
Qed.
End Credentials.

(** A value that has one property read has them all. *)
Lemma get_prop_total v k k' x :
  get_prop v k = inr x -> exists x', get_prop v k' = inr x'.
Proof.
  destruct v; cbn; try discriminate; intros _; eexists; reflexivity.
Qed.

Lemma lookup_absent k props :
  ~ In k (map fst props) -> lookup k props = VUndefined.
Proof.
  induction props as [|[k' v] rest IH]; cbn; [reflexivity|].
  intros Hn. destruct (String.eqb_spec k k') as [->|_].
  - exfalso. apply Hn. now left.
  - apply IH. intros Hin. apply Hn. now right.
Qed.

Section Routing.
Variable h : Host.

Lemma authHeaders_cases st :
  authHeaders h st
  = match toString h (apiKey st) with
    | inr key => (Return (bearer key), st)
    | inl e => (Throw e, st)
    end.
Proof.
  unfold authHeaders, bind, get_state.
  destruct (toString h (apiKey st)); reflexivity.
Qed.

Lemma endpoint_cases path st :
  endpoint h path st
  = match toString h (apiUrl st) with
    | inr base => (Return (base ++ path), st)
    | inl e => (Throw e, st)
    end.
Proof.
  unfold endpoint, bind, get_state.
  destruct (toString h (apiUrl st)); reflexivity.
Qed.

(** The completion call: nothing is sent unless both credentials print, and
    then the outcome is read off the answer. *)
Lemma execute_cases model request st :
  execute h model request st
  = match toString h (apiKey st) with
    | inl e => (Throw e, st)
    | inr key =>
        match toString h (apiUrl st) with
        | inl e => (Throw e, st)
        | inr base =>
            (completionResult
               (fetch h (sent st) (completionMessage base key model request)),
             record_sent (completionMessage base key model request) st)
        end
    end.
Proof.
  unfold execute, executeLLMCall. unfold bind at 1. rewrite authHeaders_cases.
  destruct (toString h (apiKey st)) as [e|key]; [reflexivity|].
  unfold bind at 1. rewrite endpoint_cases.
  destruct (toString h (apiUrl st)) as [e|base]; [reflexivity|].
  unfold bind at 1, send. fold (completionMessage base key model request).
  unfold completionResult, read_content.
  destruct (fetch h (sent st) (completionMessage base key model request)) as [e|r];
    [reflexivity|].
  destruct (ok r); cbn [negb]; [|reflexivity].
  unfold bind, lift, throw, ret.
  destruct (json r) as [e|result]; [reflexivity|].
  destruct (get_prop result "choices") as [e|choices]; [reflexivity|].
  destruct (get_first choices) as [e|choice]; [reflexivity|].
  destruct (get_prop choice "message") as [e|msg]; [reflexivity|].
  destruct (get_prop msg "content"); reflexivity.
Qed.

Lemma routeRequest_unfold request st :
  routeRequest h request st =
    match ensureCredentials h st with
    | (Return _, st1) =>
        match toString h (apiKey st1) with
        | inr key =>
            try_catch (routeAndExecute h request (bearer key))
                      (fallbackResponse h request) st1
        | inl e => (Throw e, st1)
        end
    | (Throw e, st1) => (Throw e, st1)
    end.
Proof.
  unfold routeRequest. unfold bind at 1.
  destruct (ensureCredentials h st) as [[[]|e] st1]; [|reflexivity].
  unfold routeWithCredentials. unfold bind at 1. rewrite authHeaders_cases.
  destruct (toString h (apiKey st1)); reflexivity.
Qed.

Lemma fallbackRequest_cases request st :
  fallbackRequest h request st =
    match execute h (VStr "gpt-3.5-turbo") request st with
    | (Return v, st') => (Return v, st')
    | (Throw _, st') => (Return (VStr (placeholder request)), st')
    end.
Proof. reflexivity. Qed.

Lemma fallbackRequest_returns request st :
  exists v st', fallbackRequest h request st = (Return v, st').
Proof.
  rewrite fallbackRequest_cases.
  destruct (execute h (VStr "gpt-3.5-turbo") request st) as [[v|e] st'];
    eexists _, _; reflexivity.
Qed.

Lemma fallbackResponse_returns request e st :
  exists resp st',
    fallbackResponse h request e st = (Return resp, st')
    /\ decision resp = fallbackDecision e
    /\ fallbackRequest h request st = (Return (response resp), st').
Proof.
  unfold fallbackResponse, bind.
  destruct (fallbackRequest_returns request st) as (v & st' & Hv).
  rewrite Hv. eexists _, _. repeat split.
Qed.

Lemma routeRequest_fallback request st st1 key e st2 :
  ensureCredentials h st = (Return tt, st1) ->
  toString h (apiKey st1) = inr key ->
  routeAndExecute h request (bearer key) st1 = (Throw e, st2) ->
  routeRequest h request st = fallbackResponse h request e st2.
Proof.
  intros Hc Hk Hr. rewrite routeRequest_unfold, Hc, Hk.
  unfold try_catch. rewrite Hr. reflexivity.
Qed.

(** The [try] block throws exactly at one of the listed stages. *)
Lemma routeAndExecute_throws request key st e st' :
  routeAndExecute h request (bearer key) st = (Throw e, st')
  <-> route_execute_failure h request key st e st'.
Proof.
  unfold routeAndExecute. unfold bind at 1. rewrite endpoint_cases.
  split.
  - destruct (toString h (apiUrl st)) as [e0|base] eqn:Hu.
    { intros [= <- <-]. now apply routing_url_unprintable. }
    unfold bind, send. fold (routeMessage base key request). fold (execute h).
    destruct (fetch h (sent st) (routeMessage base key request)) as [e0|r] eqn:Hf.
    { intros [= <- <-]. now apply routing_call_rejected. }
    destruct (ok r) eqn:Hok; cbn [negb].
    + destruct (json r) as [e0|result] eqn:Hj; cbn [lift throw ret].
      { intros [= <- <-]. now apply routing_body_not_json with r. }
      destruct (get_prop result "selected_model") as [e0|model] eqn:Hm;
        cbn [lift throw ret].
      { intros [= <- <-]. now apply routing_decision_unreadable with r result. }
      fold (execute h model request).
      destruct (execute h model request _) as [[v|e1] st1] eqn:He.
      { destruct (get_prop_total result "selected_model" "estimated_cost" model Hm)
          as [c ->].
        destruct (get_prop_total result "selected_model" "confidence" model Hm)
          as [q ->].
        destruct (get_prop_total result "selected_model" "reasoning" model Hm)
          as [w ->].
        discriminate. }
      intros [= <- <-]. now apply execution_failed with base r result model.
    + intros [= <- <-]. now apply routing_status_not_ok.
  - intros [e0 Hu|base e0 Hu Hf|base r Hu Hf Hok|base r e0 Hu Hf Hok Hj
            |base r result e0 Hu Hf Hok Hj Hm
            |base r result model e0 st1 Hu Hf Hok Hj Hm He];
      rewrite Hu; try reflexivity;
      unfold bind, send; fold (routeMessage base key request);
      rewrite Hf; try reflexivity;
      rewrite Hok; cbn [negb]; try reflexivity;
      rewrite Hj; cbn [lift throw ret]; try reflexivity;
      rewrite Hm; cbn [lift throw ret]; try reflexivity.
    fold (execute h model request). rewrite He. reflexivity.
Qed.

(** The [try] block returns exactly when both calls succeed and the
    decision can be read. *)
Lemma routeAndExecute_returns request key st resp st' :
  routeAndExecute h request (bearer key) st = (Return resp, st')
  <-> exists base r result model content,
      toString h (apiUrl st) = inr base
      /\ fetch h (sent st) (routeMessage base key request) = inr r
      /\ ok r = true
      /\ json r = inr result
      /\ get_prop result "selected_model" = inr model
      /\ execute h model request (record_sent (routeMessage base key request) st)
         = (Return content, st')
      /\ resp = remoteResponse result content.
Proof.
  unfold routeAndExecute. unfold bind at 1. rewrite endpoint_cases.
  split.
  - destruct (toString h (apiUrl st)) as [e0|base] eqn:Hu; [discriminate|].
    unfold bind, send. fold (routeMessage base key request).
    destruct (fetch h (sent st) (routeMessage base key request)) as [e0|r] eqn:Hf;
      [discriminate|].
    destruct (ok r) eqn:Hok; cbn [negb]; [|discriminate].
    destruct (json r) as [e0|result] eqn:Hj; cbn [lift throw ret]; [discriminate|].
    destruct (get_prop result "selected_model") as [e0|model] eqn:Hm;
      cbn [lift throw ret]; [discriminate|].
    fold (execute h model request).
    destruct (execute h model request _) as [[v|e1] st1] eqn:He; [|discriminate].
    unfold remoteResponse, field.
    destruct (get_prop_total result "selected_model" "estimated_cost" model Hm)
      as [c Hc].
    destruct (get_prop_total result "selected_model" "confidence" model Hm)
      as [q Hq].
    destruct (get_prop_total result "selected_model" "reasoning" model Hm)
      as [w Hw].
    rewrite Hc, Hq, Hw. cbn [lift ret]. intros [= <- <-].
    exists base, r, result, model, v. rewrite Hm, Hc, Hq, Hw.
    repeat split; assumption.
  - intros (base & r & result & model & content & Hu & Hf & Hok & Hj & Hm & He & ->).
    rewrite Hu. unfold bind, send. fold (routeMessage base key request).
    rewrite Hf, Hok. cbn [negb]. rewrite Hj. cbn [lift ret]. rewrite Hm.
    cbn [lift ret]. fold (execute h model request). rewrite He.
    unfold remoteResponse, field.
    destruct (get_prop_total result "selected_model" "estimated_cost" model Hm)
      as [c Hc].
    destruct (get_prop_total result "selected_model" "confidence" model Hm)
      as [q Hq].
    destruct (get_prop_total result "selected_model" "reasoning" model Hm)
      as [w Hw].
    rewrite Hm, Hc, Hq, Hw. reflexivity.
Qed.
End Routing.

(** ** Strings *)

Lemma substring_to_length n s :
  String.length (substring_to n s) = Nat.min n (String.length s).
Proof.
  unfold substring_to. revert s.
  induction n as [|n IH]; intros [|c s]; cbn; try reflexivity.
  now rewrite IH.
Qed.

Lemma substring_to_prefix n s :
  String.prefix (substring_to n s) s = true.
Proof.
  unfold substring_to. revert s.
  induction n as [|n IH]; intros [|c s]; cbn; try reflexivity.
  destruct (ascii_dec c c) as [_|Hne]; [apply IH | now elim Hne].
Qed.

(** ** Credential resolution *)

(** C6.  Credential resolution tries the project secrets file, then the two
    environment variables (both needed), then the home secrets file; the
    first source that yields credentials decides, and when none does the
    call throws the credentials-not-found error, whose message names the
    three sources. *)
Theorem loadCredentials_resolution_order (h : Host) (st : State) :
  loadCredentials h st =
    match secrets_in h (join (cwd h) "secrets.json") with
    | Some (u, k) => (Return tt, with_credentials u k st)
    | None =>
        if truthy (env_url h) && truthy (env_key h)
        then (Return tt, with_credentials (env_url h) (env_key h) st)
        else
          match secrets_in h (join (homedir h) "secrets.json") with
          | Some (u, k) => (Return tt, with_credentials u k st)
          | None =>
              (Throw CredentialsNotFound,
               logged "Failed to load Deimos credentials:" CredentialsNotFound
                      (with_credentials (env_url h) (env_key h) st))
          end
    end
  /\ includes (message CredentialsNotFound)
              "1. secrets.json file in project root" = true
  /\ includes (message CredentialsNotFound)
              "2. DEIMOS_API_URL and DEIMOS_API_KEY environment variables" = true
  /\ includes (message CredentialsNotFound)
              "3. secrets.json file in home directory" = true.
Proof.
  split; [apply loadCredentials_cases | repeat split; vm_compute; reflexivity].
Qed.

(** C9.  When the project secrets file parses to an object, resolution
    succeeds with whatever the object holds under [api_url] and [api_key],
    whatever the environment and the home file say; a field the object
    lacks leaves the credential [undefined]. *)
Theorem project_file_decides_even_without_fields
        (h : Host) (st : State) (props : list (string * value)) :
  readJSON h (projectSecretsPath h) = Some (VObj props) ->
  loadCredentials h st =
    (Return tt, with_credentials (lookup "api_url" props) (lookup "api_key" props) st)
  /\ (~ In "api_url" (map fst props) ->
      apiUrl (snd (loadCredentials h st)) = VUndefined)
  /\ (~ In "api_key" (map fst props) ->
      apiKey (snd (loadCredentials h st)) = VUndefined).
Proof.
  intros Hfile.
  assert (Hload : loadCredentials h st =
                  (Return tt, with_credentials (lookup "api_url" props)
                                               (lookup "api_key" props) st)).
  { rewrite loadCredentials_cases. unfold secrets_in. rewrite Hfile. reflexivity. }
  rewrite Hload. repeat split; intros Hn; cbn; now apply lookup_absent.
Qed.

Lemma project_file_decides_even_without_fields_witness :
  loadCredentials (Examples.with_project_file (VObj [])) new_DeimosRouter =
    (Return tt, new_DeimosRouter)
  /\ env (Examples.with_project_file (VObj [])) "DEIMOS_API_URL" = Some "https://deimos.test".
Proof.
  split; [|reflexivity].
  apply (project_file_decides_even_without_fields
           (Examples.with_project_file (VObj [])) new_DeimosRouter []).
  reflexivity.
Defined.

(** ** The public entry point *)

(** C1, as the code has it.  Once credentials are there (already set, or
    resolved by the first statement) and the key prints as a string,
    [routeRequest] returns a response and throws nothing: either the one
    built from the decision of the routing endpoint, whose model is the
    [selected_model] the endpoint sent, whatever it is, or the fallback
    response with the model [gpt-3.5-turbo].  When the key does not print,
    the error of the header template leaves [routeRequest]; when credentials
    are unset and cannot be resolved, the credentials-not-found error
    does. *)
Theorem routeRequest_returns_once_credentialed
        (h : Host) (request : RoutingRequest) (st : State) :
  match ensureCredentials h st with
  | (Return _, st1) =>
      match toString h (apiKey st1) with
      | inr key =>
          exists resp st',
            routeRequest h request st = (Return resp, st')
            /\ ((exists base r result model content,
                    toString h (apiUrl st1) = inr base
                    /\ fetch h (sent st1) (routeMessage base key request) = inr r
                    /\ ok r = true
                    /\ json r = inr result
                    /\ get_prop result "selected_model" = inr model
                    /\ execute h model request
                               (record_sent (routeMessage base key request) st1)
                       = (Return content, st')
                    /\ selectedModel resp = model
                    /\ response resp = content)
                \/ exists e st2,
                    route_execute_failure h request key st1 e st2
                    /\ decision resp = fallbackDecision e)
      | inl e => routeRequest h request st = (Throw e, st1)
      end
  | (Throw e, st1) =>
      e = CredentialsNotFound /\ routeRequest h request st = (Throw e, st1)
  end.
Proof.
  rewrite routeRequest_unfold.
  destruct (ensureCredentials h st) as [[[]|e] st1] eqn:Hc.
  - destruct (toString h (apiKey st1)) as [e|key] eqn:Hk; [reflexivity|].
    unfold try_catch.
    destruct (routeAndExecute h request (bearer key) st1) as [[resp|e] st2] eqn:Hr.
    + exists resp, st2. split; [reflexivity|]. left.
      apply routeAndExecute_returns in Hr
        as (base & r & result & model & content & Hu & Hf & Hok & Hj & Hm & He & ->).
      exists base, r, result, model, content.
      repeat split; try assumption.
      cbn. unfold field. now rewrite Hm.
    + destruct (fallbackResponse_returns h request e st2) as (resp & st3 & Hf & Hd & _).
      exists resp, st3. split; [exact Hf|]. right. exists e, st2.
      split; [now apply routeAndExecute_throws | exact Hd].
  - split; [now apply (ensureCredentials_throws h st e st1) | reflexivity].
Qed.

(** C1 fails as stated.  With no secrets file and no variable the entry
    point throws; and with a routing decision whose [selected_model] is the
    empty string it returns that empty model. *)
Lemma routeRequest_throws_without_credentials :
  (forall resp st',
      routeRequest Examples.bare (Examples.ask "hello") new_DeimosRouter
      <> (Return resp, st'))
  /\ fst (routeRequest Examples.bare (Examples.ask "hello") new_DeimosRouter)
     = Throw CredentialsNotFound
  /\ selectedModel_of
       (fst (routeRequest
               (Examples.routed (VObj [("selected_model", VStr "")])
                                (inr (mkResponse 200 ""
                                        (inr (Examples.completion (VStr "done"))))))
               (Examples.ask "hello") new_DeimosRouter))
     = Some (VStr "").
Proof.
  repeat split; try (vm_compute; reflexivity).
  intros resp st'. vm_compute. discriminate.
Qed.

(** ** Fallback *)

(** C4.  Whenever the route / execute sequence fails, at whichever stage,
    the response returned names the model [gpt-3.5-turbo], the cost 0.001,
    the confidence 0.5, and a reasoning that quotes the error. *)
Theorem fallback_decision_on_any_failure
        (h : Host) (request : RoutingRequest) (st st1 st2 : State)
        (key : string) (e : error) :
  ensureCredentials h st = (Return tt, st1) ->
  toString h (apiKey st1) = inr key ->
  route_execute_failure h request key st1 e st2 ->
  exists resp st3,
    routeRequest h request st = (Return resp, st3)
    /\ selectedModel resp = VStr "gpt-3.5-turbo"
    /\ estimatedCost resp = VNum 0.001%float
    /\ confidence resp = VNum 0.5%float
    /\ reasoning resp = VStr ("Fallback due to routing error: " ++ error_toString e).
Proof.
  intros Hc Hk Hfail. apply routeAndExecute_throws in Hfail.
  rewrite (routeRequest_fallback h request st st1 key e st2 Hc Hk Hfail).
  destruct (fallbackResponse_returns h request e st2) as (resp & st3 & Hf & Hd & _).
  exists resp, st3. split; [exact Hf|].
  unfold decision, fallbackDecision in Hd. injection Hd as -> -> -> ->.
  repeat split.
Qed.

Lemma fallback_decision_on_any_failure_witness :
  exists resp st3,
    routeRequest Examples.offline_host (Examples.ask "hello") new_DeimosRouter
    = (Return resp, st3)
    /\ selectedModel resp = VStr "gpt-3.5-turbo"
    /\ estimatedCost resp = VNum 0.001%float
    /\ confidence resp = VNum 0.5%float
    /\ reasoning resp = VStr "Fallback due to routing error: TypeError: fetch failed".
Proof.
  eapply (fallback_decision_on_any_failure
           Examples.offline_host (Examples.ask "hello") new_DeimosRouter
           Examples.credentialed _ "sk-test" (TypeError "fetch failed")).
  - reflexivity.
  - reflexivity.
  - apply (routing_call_rejected _ _ _ _ Examples.base); reflexivity.
Defined.

(** C3.  When the completion call fails both for the model the routing
    endpoint selected and for the fallback model, the entry point returns a
    response whose text is ["Error processing request: "], the first 100
    characters of the prompt (all of it when shorter), and ["..."]. *)
Theorem placeholder_when_both_completions_fail
        (h : Host) (request : RoutingRequest) (st st1 st2 st3 : State)
        (base key : string) (r : Response) (result model : value) (e1 e2 : error) :
  ensureCredentials h st = (Return tt, st1) ->
  toString h (apiUrl st1) = inr base ->
  toString h (apiKey st1) = inr key ->
  fetch h (sent st1) (routeMessage base key request) = inr r ->
  ok r = true ->
  json r = inr result ->
  get_prop result "selected_model" = inr model ->
  execute h model request (record_sent (routeMessage base key request) st1)
  = (Throw e1, st2) ->
  execute h (VStr "gpt-3.5-turbo") request st2 = (Throw e2, st3) ->
  exists resp,
    routeRequest h request st = (Return resp, st3)
    /\ response resp
       = VStr ("Error processing request: "
               ++ substring_to 100 (prompt request) ++ "...")
    /\ String.length (substring_to 100 (prompt request))
       = Nat.min 100 (String.length (prompt request))
    /\ String.prefix (substring_to 100 (prompt request)) (prompt request) = true.
Proof.
  intros Hc Hu Hk Hf Hok Hj Hm He1 He2.
  assert (Hfail : route_execute_failure h request key st1 e1 st2)
    by now apply execution_failed with base r result model.
  apply routeAndExecute_throws in Hfail.
  rewrite (routeRequest_fallback h request st st1 key e1 st2 Hc Hk Hfail).
  unfold fallbackResponse, bind. rewrite fallbackRequest_cases, He2.
  eexists. split; [reflexivity|].
  split; [reflexivity|].
  split; [apply substring_to_length | apply substring_to_prefix].
Qed.

Lemma placeholder_when_both_completions_fail_witness :
  exists resp,
    fst (routeRequest Examples.completions_down (Examples.ask Examples.long_prompt)
                      new_DeimosRouter) = Return resp
    /\ response resp
       = VStr ("Error processing request: "
               ++ "0123456789012345678901234567890123456789012345678901234567890123456789012345678901234567890123456789"
               ++ "...")
    /\ String.length Examples.long_prompt = 110.
Proof.
  destruct (placeholder_when_both_completions_fail
              Examples.completions_down (Examples.ask Examples.long_prompt)
              new_DeimosRouter Examples.credentialed
              _ _ Examples.base "sk-test"
              (mkResponse 200 "" (inr (VObj [("selected_model", VStr "gpt-4o")])))
              (VObj [("selected_model", VStr "gpt-4o")]) (VStr "gpt-4o")
              _ _
              eq_refl eq_refl eq_refl eq_refl eq_refl eq_refl eq_refl eq_refl eq_refl)
    as (resp & Hr & Htext & _).
  exists resp. rewrite Hr. repeat split. exact Htext.
Defined.

(** ** Routing failures *)

(** C2, as the code has it.  When the routing endpoint answers with a
    non-success status, or with a success status and a body that is not
    JSON or is [null], the decision returned is the fixed fallback decision,
    and its reasoning quotes the error: for a non-success status, the status
    and the body the endpoint sent. *)
Theorem routing_failure_gives_fixed_fallback
        (h : Host) (request : RoutingRequest) (st st1 : State)
        (base key : string) (r : Response) :
  ensureCredentials h st = (Return tt, st1) ->
  toString h (apiUrl st1) = inr base ->
  toString h (apiKey st1) = inr key ->
  fetch h (sent st1) (routeMessage base key request) = inr r ->
  (ok r = false ->
   decision_of (fst (routeRequest h request st))
   = Some (VStr "gpt-3.5-turbo", VNum 0.001%float, VNum 0.5%float,
           VStr ("Fallback due to routing error: Error: Deimos API error "
                 ++ decimal (status r) ++ ": " ++ text r)))
  /\ (forall e, ok r = true -> json r = inl e ->
      decision_of (fst (routeRequest h request st))
      = Some (VStr "gpt-3.5-turbo", VNum 0.001%float, VNum 0.5%float,
              VStr ("Fallback due to routing error: " ++ error_toString e)))
  /\ (ok r = true -> json r = inr VNull ->
      decision_of (fst (routeRequest h request st))
      = Some (VStr "gpt-3.5-turbo", VNum 0.001%float, VNum 0.5%float,
              VStr ("Fallback due to routing error: TypeError: "
                    ++ "Cannot read properties of null (reading 'selected_model')"))).
Proof.
  intros Hc Hu Hk Hf.
  assert (Hfall : forall e st2,
             route_execute_failure h request key st1 e st2 ->
             decision_of (fst (routeRequest h request st)) = Some (fallbackDecision e)).
  { intros e st2 Hfail. apply routeAndExecute_throws in Hfail.
    rewrite (routeRequest_fallback h request st st1 key e st2 Hc Hk Hfail).
    destruct (fallbackResponse_returns h request e st2) as (resp & st3 & -> & Hd & _).
    cbn. now rewrite <- Hd. }
  repeat split.
  - intros Hok.
    now rewrite (Hfall _ _ (routing_status_not_ok h request key st1 base r Hu Hf Hok)).
  - intros e Hok Hj.
    now rewrite (Hfall _ _ (routing_body_not_json h request key st1 base r e
                              Hu Hf Hok Hj)).
  - intros Hok Hj.
    now rewrite (Hfall _ _ (routing_decision_unreadable h request key st1 base r VNull _
                              Hu Hf Hok Hj eq_refl)).
Qed.

Lemma routing_failure_gives_fixed_fallback_witness :
  decision_of (fst (routeRequest (Examples.failing 500 "boom") (Examples.ask "hello")
                                 new_DeimosRouter))
  = Some (VStr "gpt-3.5-turbo", VNum 0.001%float, VNum 0.5%float,
          VStr "Fallback due to routing error: Error: Deimos API error 500: boom").
Proof.
  apply (proj1 (routing_failure_gives_fixed_fallback
                  (Examples.failing 500 "boom") (Examples.ask "hello") new_DeimosRouter
                  Examples.credentialed Examples.base "sk-test"
                  (mkResponse 500 "boom" (inl (mkError "SyntaxError" "Unexpected token")))
                  eq_refl eq_refl eq_refl eq_refl)).
  reflexivity.
Defined.

(** C2 fails as stated.  No function of the request alone, whatever rule
    engine it is, gives the decision returned after a status 500: two hosts
    that answer 500 with different bodies yield different decisions for the
    same request.  And a success response without [selected_model] is not
    taken as a routing failure: the decision returned has no model and the
    confidence 1. *)
Lemma failed_routing_decision_depends_on_remote_body :
  (~ exists ruleEngine : RoutingRequest -> value * value * value * value,
      forall (h : Host) (request : RoutingRequest) (st : State),
        (forall hist rq, exists r, fetch h hist rq = inr r /\ status r = 500%N) ->
        env h "DEIMOS_API_URL" = Some Examples.base ->
        env h "DEIMOS_API_KEY" = Some "sk-test" ->
        decision_of (fst (routeRequest h request st)) = Some (ruleEngine request))
  /\ decision_of
       (fst (routeRequest
               (Examples.routed (VObj [])
                  (inr (mkResponse 200 "" (inr (Examples.completion (VStr "done"))))))
               (Examples.ask "hello") new_DeimosRouter))
     = Some (VUndefined, VNum 0.0%float, VNum 1.0%float,
             VStr "Model selected by Deimos Router").
Proof.
  split; [|vm_compute; reflexivity].
  intros [ruleEngine Hrule].
  assert (Ha := Hrule (Examples.failing 500 "boom") (Examples.ask "hello")
                      new_DeimosRouter).
  assert (Hb := Hrule (Examples.failing 500 "bang") (Examples.ask "hello")
                      new_DeimosRouter).
  assert (H1 : decision_of (fst (routeRequest (Examples.failing 500 "boom")
                                              (Examples.ask "hello") new_DeimosRouter))
               = Some (ruleEngine (Examples.ask "hello"))).
  { apply Ha; [|reflexivity|reflexivity]. intros hist rq. eexists. split; reflexivity. }
  assert (H2 : decision_of (fst (routeRequest (Examples.failing 500 "bang")
                                              (Examples.ask "hello") new_DeimosRouter))
               = Some (ruleEngine (Examples.ask "hello"))).
  { apply Hb; [|reflexivity|reflexivity]. intros hist rq. eexists. split; reflexivity. }
  rewrite <- H2 in H1. vm_compute in H1. discriminate H1.
Qed.

(** ** The model executor *)

Lemma JSON_stringify_number_defined x : JSON_stringify (VNum x) <> VUndefined.
Proof.
  cbn. destruct (is_finite x); [destruct (PrimFloat.eqb x 0%float)|]; discriminate.
Qed.

Lemma execute_sent h model request st :
  sent (snd (execute h model request st))
  = match toString h (apiKey st), toString h (apiUrl st) with
    | inr key, inr base => (sent st ++ [completionMessage base key model request])%list
    | _, _ => sent st
    end.
Proof.
  rewrite execute_cases.
  destruct (toString h (apiKey st)); [reflexivity|].
  destruct (toString h (apiUrl st)); reflexivity.
Qed.

(** C5, as the code has it.  The completion call sends one request, when
    both credentials print, and none otherwise.  The payload of that request
    has [temperature] exactly when the caller gave one, zero included; it
    has [max_tokens] exactly when the caller gave one that is truthy, so a
    max-tokens of zero (or NaN) is left out like an absent one. *)
Theorem optional_fields_of_completion_payload
        (h : Host) (model : value) (request : RoutingRequest) (st : State)
        (base key : string) :
  sent (snd (execute h model request st))
  = match toString h (apiKey st), toString h (apiUrl st) with
    | inr k, inr b => (sent st ++ [completionMessage b k model request])%list
    | _, _ => sent st
    end
  /\ has_prop "temperature" (body (completionMessage base key model request))
     = provided (temperature request)
  /\ has_prop "max_tokens" (body (completionMessage base key model request))
     = match maxTokens request with
       | Some n => number_truthy n
       | None => false
       end
  /\ get_prop (body (completionMessage base key model request)) "temperature"
     = inr (JSON_stringify (of_number (temperature request)))
  /\ get_prop (body (completionMessage base key model request)) "max_tokens"
     = inr (match maxTokens request with
            | Some n => if number_truthy n then JSON_stringify (VNum n) else VUndefined
            | None => VUndefined
            end).
Proof.
  split; [apply execute_sent|].
  unfold completionMessage, POST, llmPayload. cbn [body].
  destruct request as [t p c m tm cp]. cbn [prompt context maxTokens temperature].
  destruct m as [n|]; cbn [of_number truthy]; [destruct (number_truthy n)|];
    destruct tm as [x|]; cbn [of_number provided]; destruct model;
    repeat split; reflexivity.
Qed.

(** C5 fails as stated.  A request with max-tokens 0 and temperature 0
    sends a payload that has [temperature] and no [max_tokens]. *)
Lemma zero_max_tokens_is_left_out :
  let request := mkRoutingRequest ANALYSIS "hello" None (Some 0%float) (Some 0%float) None in
  let msg := completionMessage Examples.base "sk-test" (VStr "gpt-4o") request in
  sent (snd (execute Examples.offline_host (VStr "gpt-4o") request
                     Examples.credentialed))
  = [msg]
  /\ body msg
     = VObj [("model", VStr "gpt-4o");
             ("messages", VArr [VObj [("role", VStr "user");
                                      ("content", VStr "hello")]]);
             ("temperature", VNum 0%float)]
  /\ has_prop "max_tokens" (body msg) = false
  /\ provided (maxTokens request) = true.
Proof. repeat split. Qed.

Lemma execute_returns_content h model request st base key
      r result choices choice msg content :
  toString h (apiUrl st) = inr base ->
  toString h (apiKey st) = inr key ->
  fetch h (sent st) (completionMessage base key model request) = inr r ->
  ok r = true ->
  json r = inr result ->
  get_prop result "choices" = inr choices ->
  get_first choices = inr choice ->
  get_prop choice "message" = inr msg ->
  get_prop msg "content" = inr content ->
  execute h model request st
  = (Return content, record_sent (completionMessage base key model request) st).
Proof.
  intros Hu Hk Hf Hok Hj Hc Hch Hm Hcontent.
  rewrite execute_cases, Hk, Hu, Hf. unfold completionResult, read_content.
  rewrite Hok. cbn [negb]. now rewrite Hj, Hc, Hch, Hm, Hcontent.
Qed.

(** C7, as the code has it.  The payload carries one message, of role
    [user]; its content is the prompt alone when the context is left out or
    is the empty string, and the prompt framed by the context otherwise.  On
    a success response the call returns [choices[0].message.content] of the
    parsed body as it is. *)
Theorem executor_message_and_result
        (h : Host) (model : value) (request : RoutingRequest) (st : State)
        (base key : string) :
  get_prop (body (completionMessage base key model request)) "messages"
  = inr (VArr [VObj [("role", VStr "user");
                     ("content",
                      VStr (match context request with
                            | None => prompt request
                            | Some c =>
                                if String.eqb c "" then prompt request
                                else "Context: " ++ c ++ newline ++ newline
                                     ++ "Task: " ++ prompt request
                            end))]])
  /\ forall r result choices choice msg content,
      toString h (apiUrl st) = inr base ->
      toString h (apiKey st) = inr key ->
      fetch h (sent st) (completionMessage base key model request) = inr r ->
      ok r = true ->
      json r = inr result ->
      get_prop result "choices" = inr choices ->
      get_first choices = inr choice ->
      get_prop choice "message" = inr msg ->
      get_prop msg "content" = inr content ->
      execute h model request st
      = (Return content, record_sent (completionMessage base key model request) st).
Proof.
  split.
  - unfold completionMessage, POST, llmPayload, fullPrompt. cbn [body].
    destruct request as [t p c m tm cp]. cbn [prompt context maxTokens temperature].
    destruct c as [c|]; cbn [truthy];
      [destruct (String.eqb c ""); cbn [negb]|];
      (destruct m as [n|]; cbn [of_number truthy]; [destruct (number_truthy n)|]);
      destruct tm as [x|]; destruct model; reflexivity.
  - intros r result choices choice msg content.
    apply execute_returns_content.
Qed.

Lemma executor_message_and_result_witness :
  execute (Examples.routed VNull
             (inr (mkResponse 200 "" (inr (Examples.completion (VStr "  {not json} "))))))
          (VStr "gpt-4o")
          (mkRoutingRequest ANALYSIS "Why?" (Some "logs") None None None)
          Examples.credentialed
  = (Return (VStr "  {not json} "),
     with_sent
       [mkRequest "https://deimos.test/chat/completions" "POST"
                  [("Authorization", "Bearer sk-test");
                   ("Content-Type", "application/json")]
                  (VObj [("model", VStr "gpt-4o");
                         ("messages",
                          VArr [VObj [("role", VStr "user");
                                      ("content",
                                       VStr ("Context: logs" ++ newline ++ newline
                                             ++ "Task: Why?"))]])])]
       Examples.credentialed).
Proof.
  apply (proj2 (executor_message_and_result
                  (Examples.routed VNull
                     (inr (mkResponse 200 ""
                             (inr (Examples.completion (VStr "  {not json} "))))))
                  (VStr "gpt-4o")
                  (mkRoutingRequest ANALYSIS "Why?" (Some "logs") None None None)
                  Examples.credentialed Examples.base "sk-test")
               (mkResponse 200 "" (inr (Examples.completion (VStr "  {not json} "))))
               (Examples.completion (VStr "  {not json} "))
               (VArr [VObj [("message", VObj [("role", VStr "assistant");
                                              ("content", VStr "  {not json} ")])]])
               (VObj [("message", VObj [("role", VStr "assistant");
                                        ("content", VStr "  {not json} ")])])
               (VObj [("role", VStr "assistant"); ("content", VStr "  {not json} ")])
               (VStr "  {not json} ")
               eq_refl eq_refl eq_refl eq_refl eq_refl eq_refl eq_refl eq_refl eq_refl).
Defined.

(** C7 fails as stated.  A context that is present and empty is not framed:
    the content sent is the bare prompt. *)
Lemma empty_context_is_not_framed :
  let request := mkRoutingRequest ANALYSIS "hi" (Some "") None None None in
  first_message_content
    (body (completionMessage Examples.base "sk-test" (VStr "gpt-4o") request))
  = inr (VStr "hi")
  /\ sent (snd (execute Examples.offline_host (VStr "gpt-4o") request
                        Examples.credentialed))
     = [completionMessage Examples.base "sk-test" (VStr "gpt-4o") request]
  /\ provided (context request) = true
  /\ "hi" <> "Context: " ++ "" ++ newline ++ newline ++ "Task: " ++ "hi".
Proof. repeat split. discriminate. Qed.


(** ** Convenience entry points *)

(** C8.  The three convenience entry points route, on a fresh router, a
    request with their task type, token limit and temperature (analysis:
    2000 and 0.3, summarization: 1000 and 0.2, classification: 500 and 0.1)
    and with the caller's cost priority, or 0.7, 0.8 and 0.9 when the caller
    gives none; the routing payload of a request without a cost priority
    says 0.7. *)
Theorem convenience_presets
        (h : Host) (base key : string) (p : string) (c : option string)
        (cp : option float) (t : TaskType) (m tm : option float) :
  (routeAnalysisRequest h p c cp
   = construct_and_route h
       (mkRoutingRequest ANALYSIS p c (Some 2000%float) (Some 0.3%float)
          (Some (match cp with Some x => x | None => 0.7%float end)))
   /\ routeSummarizationRequest h p c cp
      = construct_and_route h
          (mkRoutingRequest SUMMARIZATION p c (Some 1000%float) (Some 0.2%float)
             (Some (match cp with Some x => x | None => 0.8%float end)))
   /\ routeClassificationRequest h p c cp
      = construct_and_route h
          (mkRoutingRequest CLASSIFICATION p c (Some 500%float) (Some 0.1%float)
             (Some (match cp with Some x => x | None => 0.9%float end))))
  /\ (get_prop (body (routeMessage base key (analysisRequest p c cp))) "task_type"
      = inr (VStr "analysis")
      /\ preference "max_tokens" (body (routeMessage base key (analysisRequest p c cp)))
         = inr (VNum 2000%float)
      /\ preference "temperature" (body (routeMessage base key (analysisRequest p c cp)))
         = inr (VNum 0.3%float)
      /\ preference "cost_priority"
                    (body (routeMessage base key (analysisRequest p c None)))
         = inr (VNum 0.7%float))
  /\ (get_prop (body (routeMessage base key (summarizationRequest p c cp))) "task_type"
      = inr (VStr "summarization")
      /\ preference "max_tokens"
                    (body (routeMessage base key (summarizationRequest p c cp)))
         = inr (VNum 1000%float)
      /\ preference "temperature"
                    (body (routeMessage base key (summarizationRequest p c cp)))
         = inr (VNum 0.2%float)
      /\ preference "cost_priority"
                    (body (routeMessage base key (summarizationRequest p c None)))
         = inr (VNum 0.8%float))
  /\ (get_prop (body (routeMessage base key (classificationRequest p c cp))) "task_type"
      = inr (VStr "classification")
      /\ preference "max_tokens"
                    (body (routeMessage base key (classificationRequest p c cp)))
         = inr (VNum 500%float)
      /\ preference "temperature"
                    (body (routeMessage base key (classificationRequest p c cp)))
         = inr (VNum 0.1%float)
      /\ preference "cost_priority"
                    (body (routeMessage base key (classificationRequest p c None)))
         = inr (VNum 0.9%float))
  /\ preference "cost_priority" (routePayload (mkRoutingRequest t p c m tm None))
     = inr (VNum 0.7%float)
  /\ preference "cost_priority"
                (body (routeMessage base key (mkRoutingRequest t p c m tm None)))
     = inr (VNum 0.7%float).
Proof.
  split; [destruct cp; repeat split|].
  unfold routeMessage, POST, routePayload, analysisRequest, summarizationRequest,
    classificationRequest, default.
  cbn [body taskType prompt context maxTokens temperature costPriority of_number nullish].
  destruct c as [c|]; destruct cp as [x|]; destruct m as [n|]; destruct tm as [y|];
    repeat split; reflexivity.
Qed.

(** * Further properties *)

(** ** What a run does to the state *)

Lemma execute_outcome_state h model request st base key o st' :
  toString h (apiUrl st) = inr base ->
  toString h (apiKey st) = inr key ->
  execute h model request st = (o, st') ->
  st' = record_sent (completionMessage base key model request) st.
Proof.
  intros Hu Hk. rewrite execute_cases, Hk, Hu. now intros [= _ <-].
Qed.

Lemma fallbackResponse_state h request e st :
  snd (fallbackResponse h request e st)
  = snd (execute h fallbackModel request st).
Proof.
  unfold fallbackResponse, bind. rewrite fallbackRequest_cases.
  unfold fallbackModel.
  destruct (execute h (VStr "gpt-3.5-turbo") request st) as [[v|e'] st'];
    reflexivity.
Qed.

Lemma ensureCredentials_noop h st :
  credentials_set st = true -> ensureCredentials h st = (Return tt, st).
Proof.
  unfold credentials_set, ensureCredentials, needsCredentials, bind, get_state.
  intros H. apply andb_true_iff in H as [-> ->]. reflexivity.
Qed.

Lemma ensureCredentials_loads h st :
  credentials_set st = false -> ensureCredentials h st = loadCredentials h st.
Proof.
  unfold credentials_set, ensureCredentials, needsCredentials, bind, get_state.
  intros H. rewrite <- negb_andb, H. reflexivity.
Qed.

Lemma loadCredentials_sent h st : sent (snd (loadCredentials h st)) = sent st.
Proof.
  rewrite loadCredentials_cases.
  destruct (secrets_in h (projectSecretsPath h)) as [[? ?]|]; [reflexivity|].
  destruct (truthy (env_url h) && truthy (env_key h)); [reflexivity|].
  destruct (secrets_in h (homeSecretsPath h)) as [[? ?]|]; reflexivity.
Qed.

Lemma ensureCredentials_sent h st : sent (snd (ensureCredentials h st)) = sent st.
Proof.
  unfold ensureCredentials, bind, get_state.
  destruct (needsCredentials st); [apply loadCredentials_sent | reflexivity].
Qed.

(** The state after [routeRequest]: nothing is sent unless both credentials
    print, and then the [try] block goes one of three ways. *)
Lemma routeRequest_state h request st st1 :
  ensureCredentials h st = (Return tt, st1) ->
  match toString h (apiKey st1), toString h (apiUrl st1) with
  | inr key, inr base =>
      let route := routeMessage base key request in
      let retry := completionMessage base key fallbackModel request in
      snd (routeRequest h request st) = with_sent (sent st1 ++ [route; retry]) st1
      \/ exists model,
          let call := completionMessage base key model request in
          snd (routeRequest h request st) = with_sent (sent st1 ++ [route; call]) st1
          \/ snd (routeRequest h request st)
             = with_sent (sent st1 ++ [route; call; retry]) st1
  | _, _ => snd (routeRequest h request st) = st1
  end.
Proof.
  intros Hc. rewrite routeRequest_unfold, Hc.
  destruct (toString h (apiKey st1)) as [e|key] eqn:Hk; [reflexivity|].
  unfold try_catch.
  destruct (toString h (apiUrl st1)) as [e|base] eqn:Hu.
  - rewrite (proj2 (routeAndExecute_throws h request key st1 e st1)
               (routing_url_unprintable h request key st1 e Hu)).
    rewrite fallbackResponse_state, execute_cases, Hk, Hu. reflexivity.
  - cbn zeta.
    destruct (routeAndExecute h request (bearer key) st1) as [[resp|e] st2] eqn:Hr.
    + apply routeAndExecute_returns in Hr
        as (base' & r & result & model & content & Hu' & _ & _ & _ & _ & He & _).
      rewrite Hu in Hu'. injection Hu' as <-.
      apply (execute_outcome_state h model request _ base key) in He;
        [|exact Hu|exact Hk].
      right. exists model. left.
      cbn [snd]. rewrite He. unfold record_sent, with_sent. cbn.
      now rewrite <- app_assoc.
    + rewrite fallbackResponse_state.
      apply routeAndExecute_throws in Hr.
      destruct Hr as [e0 Hu'|base' e0 Hu' Hf|base' r Hu' Hf Hok|base' r e0 Hu' Hf Hok Hj
                     |base' r result e0 Hu' Hf Hok Hj Hm
                     |base' r result model e0 st2 Hu' Hf Hok Hj Hm He];
        rewrite Hu in Hu'; try discriminate Hu'; injection Hu' as <-.
      1-4: left; rewrite execute_cases; cbn [apiKey apiUrl record_sent];
        rewrite Hk, Hu; unfold record_sent, with_sent; cbn;
        now rewrite <- app_assoc.
      apply (execute_outcome_state h model request _ base key) in He;
        [|exact Hu|exact Hk].
      right. exists model. right. subst st2.
      rewrite execute_cases; cbn [apiKey apiUrl record_sent].
      rewrite Hk, Hu. unfold record_sent, with_sent. cbn.
      now rewrite <- !app_assoc.
Qed.

Lemma added_app (before new : list Request) : added before (before ++ new) = new.
Proof.
  unfold added. induction before as [|rq before IH]; [reflexivity | exact IH].
Qed.

Lemma added_none (before : list Request) : added before before = [].
Proof.
  unfold added. induction before as [|rq before IH]; [reflexivity | exact IH].
Qed.


Lemma substring_to_short n s : String.length s <= n -> substring_to n s = s.
Proof.
  unfold substring_to. revert s.
  induction n as [|n IH]; intros [|c s]; cbn; intros Hle; try reflexivity.
  - inversion Hle.
  - f_equal. apply IH. now apply le_S_n.
Qed.

Lemma length_append (a b : string) :
  String.length (a ++ b) = String.length a + String.length b.
Proof. induction a as [|c a IH]; cbn; [reflexivity | now rewrite IH]. Qed.

(** ** The requests of a call *)

(** X1.  With credentials that print as strings, a call of [routeRequest]
    sends the routing request first and once, then one or two completion
    requests; a second completion request is the one for the fallback
    model. *)
Theorem routeRequest_sends_route_then_completions
        (h : Host) (request : RoutingRequest) (st st1 : State) (base key : string) :
  ensureCredentials h st = (Return tt, st1) ->
  toString h (apiUrl st1) = inr base ->
  toString h (apiKey st1) = inr key ->
  exists calls,
    sent (snd (routeRequest h request st))
    = (sent st ++ routeMessage base key request :: calls)%list
    /\ (calls = [completionMessage base key fallbackModel request]
        \/ exists model,
            calls = [completionMessage base key model request]
            \/ calls = [completionMessage base key model request;
                        completionMessage base key fallbackModel request]).
Proof.
  intros Hc Hu Hk.
  assert (Hs : sent st1 = sent st)
    by (rewrite <- (ensureCredentials_sent h st), Hc; reflexivity).
  pose proof (routeRequest_state h request st st1 Hc) as Hstate.
  rewrite Hk, Hu in Hstate. cbn zeta in Hstate.
  destruct Hstate as [-> | [model [-> | ->]]];
    cbn [with_sent sent]; rewrite Hs; eexists; split; try reflexivity.
  - now left.
  - right. exists model. now left.
  - right. exists model. now right.
Qed.

Lemma routeRequest_sends_route_then_completions_witness :
  exists calls,
    sent (snd (routeRequest Examples.completions_down (Examples.ask "hello")
                            new_DeimosRouter))
    = routeMessage Examples.base "sk-test" (Examples.ask "hello") :: calls
    /\ (calls = [completionMessage Examples.base "sk-test" fallbackModel
                                   (Examples.ask "hello")]
        \/ exists model,
            calls = [completionMessage Examples.base "sk-test" model
                                       (Examples.ask "hello")]
            \/ calls = [completionMessage Examples.base "sk-test" model
                                          (Examples.ask "hello");
                        completionMessage Examples.base "sk-test" fallbackModel
                                          (Examples.ask "hello")]).
Proof.
  exact (routeRequest_sends_route_then_completions
           Examples.completions_down (Examples.ask "hello") new_DeimosRouter
           Examples.credentialed Examples.base "sk-test" eq_refl eq_refl eq_refl).
Defined.

(** X2.  Every request a call of [routeRequest] sends is a POST with the
    bearer header of the stored key and the JSON content type, to the
    [/route] or the [/chat/completions] path under the stored URL. *)
Theorem routeRequest_requests_are_authenticated_posts
        (h : Host) (request : RoutingRequest) (st st1 : State) :
  ensureCredentials h st = (Return tt, st1) ->
  Forall (fun rq =>
            method rq = "POST"
            /\ exists base key,
                toString h (apiUrl st1) = inr base
                /\ toString h (apiKey st1) = inr key
                /\ headers rq = [("Authorization", "Bearer " ++ key);
                                 ("Content-Type", "application/json")]
                /\ (url rq = base ++ "/route"
                    \/ url rq = base ++ "/chat/completions"))
         (added (sent st) (sent (snd (routeRequest h request st)))).
Proof.
  intros Hc.
  assert (Hs : sent st1 = sent st)
    by (rewrite <- (ensureCredentials_sent h st), Hc; reflexivity).
  pose proof (routeRequest_state h request st st1 Hc) as Hstate.
  destruct (toString h (apiKey st1)) as [e|key] eqn:Hk;
    [rewrite Hstate, Hs, added_none; apply Forall_nil|].
  destruct (toString h (apiUrl st1)) as [e|base] eqn:Hu;
    [rewrite Hstate, Hs, added_none; apply Forall_nil|].
  cbn zeta in Hstate.
  destruct Hstate as [-> | [model [-> | ->]]];
    cbn [with_sent sent]; rewrite Hs, added_app;
    repeat (apply Forall_cons;
            [split; [reflexivity|]; exists base, key;
             repeat split; (now left) || (now right)|]);
    apply Forall_nil.
Qed.

Lemma routeRequest_requests_are_authenticated_posts_witness :
  Forall (fun rq =>
            method rq = "POST"
            /\ exists base key,
                toString (Examples.failing 500 "boom") (VStr "https://deimos.test")
                = inr base
                /\ toString (Examples.failing 500 "boom") (VStr "sk-test") = inr key
                /\ headers rq = [("Authorization", "Bearer " ++ key);
                                 ("Content-Type", "application/json")]
                /\ (url rq = base ++ "/route"
                    \/ url rq = base ++ "/chat/completions"))
         (added [] (sent (snd (routeRequest (Examples.failing 500 "boom")
                                            (Examples.ask "hello") new_DeimosRouter)))).
Proof.
  exact (routeRequest_requests_are_authenticated_posts
           (Examples.failing 500 "boom") (Examples.ask "hello") new_DeimosRouter
           Examples.credentialed eq_refl).
Defined.

(** X3.  When credentials cannot be resolved, [routeRequest] sends nothing:
    it stops in the state [loadCredentials] left, with the log of requests
    as it was and one more line on the console. *)
Theorem no_request_without_credentials
        (h : Host) (request : RoutingRequest) (st st1 : State) (e : error) :
  ensureCredentials h st = (Throw e, st1) ->
  routeRequest h request st = (Throw CredentialsNotFound, st1)
  /\ sent st1 = sent st
  /\ console st1
     = (console st ++ [("Failed to load Deimos credentials:", CredentialsNotFound)])%list.
Proof.
  intros Hc. rewrite routeRequest_unfold, Hc.
  rewrite (ensureCredentials_throws h st e st1 Hc). split; [reflexivity|].
  revert Hc. unfold ensureCredentials, bind, get_state.
  destruct (needsCredentials st); [|discriminate].
  rewrite loadCredentials_cases.
  destruct (secrets_in h (projectSecretsPath h)) as [[? ?]|]; [discriminate|].
  destruct (truthy (env_url h) && truthy (env_key h)); [discriminate|].
  destruct (secrets_in h (homeSecretsPath h)) as [[? ?]|]; [discriminate|].
  intros [= _ <-]. split; reflexivity.
Qed.

Lemma no_request_without_credentials_witness :
  routeRequest Examples.url_only_host (Examples.ask "hello") new_DeimosRouter
  = (Throw CredentialsNotFound,
     mkState (VStr Examples.base) VUndefined []
             [("Failed to load Deimos credentials:", CredentialsNotFound)]).
Proof.
  apply (no_request_without_credentials
           Examples.url_only_host (Examples.ask "hello") new_DeimosRouter
           (mkState (VStr Examples.base) VUndefined []
                    [("Failed to load Deimos credentials:", CredentialsNotFound)])
           CredentialsNotFound).
  reflexivity.
Defined.

(** X4.  When both calls succeed, the response copies the decision of the
    routing endpoint: the model as sent, the cost, confidence and reasoning
    as sent unless missing or [null] (then 0, 1 and a fixed sentence), and
    the completion text; two requests were sent. *)
Theorem routed_response_copies_decision
        (h : Host) (request : RoutingRequest) (st st1 : State) (base key : string)
        (r r2 : Response) (result model result2 choices choice msg content : value) :
  ensureCredentials h st = (Return tt, st1) ->
  toString h (apiUrl st1) = inr base ->
  toString h (apiKey st1) = inr key ->
  fetch h (sent st1) (routeMessage base key request) = inr r ->
  ok r = true ->
  json r = inr result ->
  get_prop result "selected_model" = inr model ->
  fetch h (sent st1 ++ [routeMessage base key request])
        (completionMessage base key model request) = inr r2 ->
  ok r2 = true ->
  json r2 = inr result2 ->
  get_prop result2 "choices" = inr choices ->
  get_first choices = inr choice ->
  get_prop choice "message" = inr msg ->
  get_prop msg "content" = inr content ->
  routeRequest h request st
  = (Return (mkRoutingResponse
               model
               (nullish (field result "estimated_cost") (VNum 0.0%float))
               (nullish (field result "confidence") (VNum 1.0%float))
               (nullish (field result "reasoning")
                        (VStr "Model selected by Deimos Router"))
               content),
     with_sent (sent st1 ++ [routeMessage base key request;
                             completionMessage base key model request]) st1).
Proof.
  intros Hc Hu Hk Hf Hok Hj Hm Hf2 Hok2 Hj2 Hch Hfirst Hmsg Hcontent.
  rewrite routeRequest_unfold, Hc, Hk. unfold try_catch.
  assert (He : execute h model request (record_sent (routeMessage base key request) st1)
               = (Return content,
                  record_sent (completionMessage base key model request)
                              (record_sent (routeMessage base key request) st1))).
  { exact (execute_returns_content
             h model request (record_sent (routeMessage base key request) st1)
             base key r2 result2 choices choice msg content
             Hu Hk Hf2 Hok2 Hj2 Hch Hfirst Hmsg Hcontent). }
  assert (Hr : routeAndExecute h request (bearer key) st1
               = (Return (remoteResponse result content),
                  record_sent (completionMessage base key model request)
                              (record_sent (routeMessage base key request) st1))).
  { apply routeAndExecute_returns. exists base, r, result, model, content.
    repeat split; assumption. }
  rewrite Hr. unfold remoteResponse, field at 1. rewrite Hm.
  unfold record_sent, with_sent. cbn. now rewrite <- app_assoc.
Qed.

Lemma routed_response_copies_decision_witness :
  fst (routeRequest
         (Examples.routed Examples.decision_doc
            (inr (mkResponse 200 "" (inr (Examples.completion (VStr "done"))))))
         (Examples.ask "hello") new_DeimosRouter)
  = Return (mkRoutingResponse (VStr "gpt-4o") (VNum 0.02%float) (VNum 0%float)
                              (VStr "Model selected by Deimos Router") (VStr "done")).
Proof.
  rewrite (routed_response_copies_decision
             (Examples.routed Examples.decision_doc
                (inr (mkResponse 200 "" (inr (Examples.completion (VStr "done"))))))
             (Examples.ask "hello") new_DeimosRouter Examples.credentialed
             Examples.base "sk-test"
             (mkResponse 200 "" (inr Examples.decision_doc))
             (mkResponse 200 "" (inr (Examples.completion (VStr "done"))))
             Examples.decision_doc (VStr "gpt-4o")
             (Examples.completion (VStr "done"))
             (VArr [VObj [("message", VObj [("role", VStr "assistant");
                                            ("content", VStr "done")])]])
             (VObj [("message", VObj [("role", VStr "assistant");
                                      ("content", VStr "done")])])
             (VObj [("role", VStr "assistant"); ("content", VStr "done")])
             (VStr "done")
             eq_refl eq_refl eq_refl eq_refl eq_refl eq_refl eq_refl
             eq_refl eq_refl eq_refl eq_refl eq_refl eq_refl eq_refl).
  reflexivity.
Defined.

(** ** Credentials across calls *)

(** X5.  A router that holds both credentials never consults the secrets
    files or the environment: two hosts with the same network answer a call
    alike, whatever their files, variables and directories. *)
Theorem credentialed_router_ignores_sources
        (h h' : Host) (request : RoutingRequest) (st : State) :
  credentials_set st = true ->
  fetch h = fetch h' ->
  Number_toString h = Number_toString h' ->
  routeRequest h request st = routeRequest h' request st.
Proof.
  intros Hset Hfetch Hprint.
  unfold routeRequest, bind. rewrite !(ensureCredentials_noop _ st Hset).
  destruct h as [d1 d2 files vars net print], h' as [d1' d2' files' vars' net' print'].
  cbn in Hfetch, Hprint. subst net' print'. reflexivity.
Qed.

Lemma credentialed_router_ignores_sources_witness :
  routeRequest (Examples.failing 500 "boom") (Examples.ask "hello") Examples.credentialed
  = routeRequest
      (mkHost "/" "/root" (fun _ => Some VNull) Examples.no_env
              (fetch (Examples.failing 500 "boom")) Examples.print_number)
      (Examples.ask "hello") Examples.credentialed.
Proof.
  apply (credentialed_router_ignores_sources
           (Examples.failing 500 "boom")
           (mkHost "/" "/root" (fun _ => Some VNull) Examples.no_env
                   (fetch (Examples.failing 500 "boom")) Examples.print_number)
           (Examples.ask "hello") Examples.credentialed);
    reflexivity.
Defined.

(** X6.  The route / execute / fallback part of a call changes neither
    credential and writes nothing on the console; so credentials that were
    resolved to truthy values are not resolved again by the next call. *)
Theorem routeRequest_keeps_credentials
        (h : Host) (request : RoutingRequest) (st st1 : State) :
  ensureCredentials h st = (Return tt, st1) ->
  apiUrl (snd (routeRequest h request st)) = apiUrl st1
  /\ apiKey (snd (routeRequest h request st)) = apiKey st1
  /\ console (snd (routeRequest h request st)) = console st1
  /\ (credentials_set st1 = true ->
      ensureCredentials h (snd (routeRequest h request st))
      = (Return tt, snd (routeRequest h request st))).
Proof.
  intros Hc.
  assert (Hkeep : apiUrl (snd (routeRequest h request st)) = apiUrl st1
                  /\ apiKey (snd (routeRequest h request st)) = apiKey st1
                  /\ console (snd (routeRequest h request st)) = console st1).
  { pose proof (routeRequest_state h request st st1 Hc) as Hstate.
    destruct (toString h (apiKey st1)); [rewrite Hstate; repeat split|].
    destruct (toString h (apiUrl st1)); [rewrite Hstate; repeat split|].
    cbn zeta in Hstate.
    destruct Hstate as [-> | [model [-> | ->]]]; repeat split. }
  destruct Hkeep as (Hu & Hk & Hl). repeat split; try assumption.
  intros Hset. apply ensureCredentials_noop.
  unfold credentials_set in *. now rewrite Hu, Hk.
Qed.

Lemma routeRequest_keeps_credentials_witness :
  apiUrl (snd (routeRequest Examples.blank_url_host (Examples.ask "hello")
                            new_DeimosRouter))
  = VStr "https://home.test"
  /\ apiKey (snd (routeRequest Examples.blank_url_host (Examples.ask "hello")
                               new_DeimosRouter))
     = VStr "sk-home".
Proof.
  destruct (routeRequest_keeps_credentials
              Examples.blank_url_host (Examples.ask "hello") new_DeimosRouter
              (mkState (VStr "https://home.test") (VStr "sk-home") [] [])
              eq_refl) as (Hu & Hk & _).
  split; [exact Hu | exact Hk].
Defined.

(** X7.  Resolution does not look at the credentials already held: its
    outcome and the two fields it leaves are the same from any state, and it
    sends no request. *)
Theorem loadCredentials_overwrites (h : Host) (st st' : State) :
  fst (loadCredentials h st) = fst (loadCredentials h st')
  /\ apiUrl (snd (loadCredentials h st)) = apiUrl (snd (loadCredentials h st'))
  /\ apiKey (snd (loadCredentials h st)) = apiKey (snd (loadCredentials h st'))
  /\ sent (snd (loadCredentials h st)) = sent st.
Proof.
  rewrite !loadCredentials_cases.
  destruct (secrets_in h (projectSecretsPath h)) as [[? ?]|]; [repeat split|].
  destruct (truthy (env_url h) && truthy (env_key h)); [repeat split|].
  destruct (secrets_in h (homeSecretsPath h)) as [[? ?]|]; repeat split.
Qed.

(** X8.  A variable that is set to the empty string counts as unset: with
    no usable project file, credentials then come from the home secrets file
    or resolution fails, even when the other variable is set. *)
Theorem empty_variable_counts_as_unset (h : Host) (st : State) :
  secrets_in h (projectSecretsPath h) = None ->
  env h "DEIMOS_API_URL" = Some "" \/ env h "DEIMOS_API_KEY" = Some "" ->
  loadCredentials h st
  = match secrets_in h (homeSecretsPath h) with
    | Some (u, k) => (Return tt, with_credentials u k st)
    | None =>
        (Throw CredentialsNotFound,
         logged "Failed to load Deimos credentials:" CredentialsNotFound
                (with_credentials (env_url h) (env_key h) st))
    end.
Proof.
  intros Hp Hblank. rewrite loadCredentials_cases, Hp.
  assert (Hno : truthy (env_url h) && truthy (env_key h) = false).
  { unfold env_url, env_key. destruct Hblank as [-> | ->]; cbn;
      [reflexivity | apply andb_false_r]. }
  now rewrite Hno.
Qed.

Lemma empty_variable_counts_as_unset_witness :
  loadCredentials Examples.blank_url_host new_DeimosRouter
  = (Return tt, mkState (VStr "https://home.test") (VStr "sk-home") [] [])
  /\ env Examples.blank_url_host "DEIMOS_API_KEY" = Some "sk-test".
Proof.
  split; [|reflexivity].
  apply (empty_variable_counts_as_unset Examples.blank_url_host new_DeimosRouter);
    [reflexivity | left; reflexivity].
Defined.

(** X9.  A project secrets file that holds the JSON value [null] is passed
    over like a missing file: resolution goes on with the variables and the
    home file. *)
Theorem null_project_file_falls_through (h : Host) (st : State) :
  readJSON h (projectSecretsPath h) = Some VNull ->
  loadCredentials h st
  = if truthy (env_url h) && truthy (env_key h)
    then (Return tt, with_credentials (env_url h) (env_key h) st)
    else
      match secrets_in h (homeSecretsPath h) with
      | Some (u, k) => (Return tt, with_credentials u k st)
      | None =>
          (Throw CredentialsNotFound,
           logged "Failed to load Deimos credentials:" CredentialsNotFound
                  (with_credentials (env_url h) (env_key h) st))
      end.
Proof.
  intros Hfile. rewrite loadCredentials_cases. unfold secrets_in at 1.
  rewrite Hfile. reflexivity.
Qed.

Lemma null_project_file_falls_through_witness :
  loadCredentials (Examples.with_project_file VNull) new_DeimosRouter
  = (Return tt, Examples.credentialed).
Proof.
  apply (null_project_file_falls_through (Examples.with_project_file VNull)
                                         new_DeimosRouter).
  reflexivity.
Defined.

(** X10.  A failed resolution is not remembered: the next call resolves
    again, and on the same host fails again with one more console line. *)
Theorem failed_resolution_is_retried (h : Host) (st st1 : State) (e : error) :
  loadCredentials h st = (Throw e, st1) ->
  ensureCredentials h st1 = loadCredentials h st1
  /\ loadCredentials h st1
     = (Throw CredentialsNotFound,
        logged "Failed to load Deimos credentials:" CredentialsNotFound st1).
Proof.
  intros Hload. rewrite loadCredentials_cases in Hload.
  destruct (secrets_in h (projectSecretsPath h)) as [[? ?]|] eqn:Hp; [discriminate|].
  destruct (truthy (env_url h) && truthy (env_key h)) eqn:Henv; [discriminate|].
  destruct (secrets_in h (homeSecretsPath h)) as [[? ?]|] eqn:Hh; [discriminate|].
  injection Hload as _ <-.
  assert (Hagain : forall s,
             loadCredentials h s
             = (Throw CredentialsNotFound,
                logged "Failed to load Deimos credentials:" CredentialsNotFound
                       (with_credentials (env_url h) (env_key h) s)))
    by (intros s; rewrite loadCredentials_cases, Hp, Henv, Hh; reflexivity).
  split.
  - apply ensureCredentials_loads. exact Henv.
  - rewrite Hagain. reflexivity.
Qed.

Lemma failed_resolution_is_retried_witness :
  ensureCredentials Examples.url_only_host
    (mkState (VStr Examples.base) VUndefined []
             [("Failed to load Deimos credentials:", CredentialsNotFound)])
  = loadCredentials Examples.url_only_host
      (mkState (VStr Examples.base) VUndefined []
               [("Failed to load Deimos credentials:", CredentialsNotFound)]).
Proof.
  apply (failed_resolution_is_retried
           Examples.url_only_host new_DeimosRouter
           (mkState (VStr Examples.base) VUndefined []
                    [("Failed to load Deimos credentials:", CredentialsNotFound)])
           CredentialsNotFound).
  reflexivity.
Defined.



(** ** Construction *)



(** ** The completion call and its retry *)

(** X13.  [fallbackRequest] never throws.  It sends the completion request
    for the fallback model, with the prompt, context and limits of the
    original request, once when both credentials print and not at all
    otherwise; it returns what that call returned, or the placeholder when
    the call threw. *)
Theorem fallbackRequest_retries_once
        (h : Host) (request : RoutingRequest) (st : State) :
  exists v,
    fallbackRequest h request st
    = (Return v,
       match toString h (apiKey st), toString h (apiUrl st) with
       | inr key, inr base =>
           record_sent (POST (base ++ "/chat/completions")
                             [("Authorization", "Bearer " ++ key);
                              ("Content-Type", "application/json")]
                             (llmPayload (VStr "gpt-3.5-turbo") (prompt request)
                                         (context request) (maxTokens request)
                                         (temperature request))) st
       | _, _ => st
       end)
    /\ (fst (execute h (VStr "gpt-3.5-turbo") request st) = Return v
        \/ (throws (fst (execute h (VStr "gpt-3.5-turbo") request st)) = true
            /\ v = VStr (placeholder request))).
Proof.
  rewrite fallbackRequest_cases, execute_cases.
  destruct (toString h (apiKey st)) as [e|key].
  { eexists. split; [reflexivity | right; now split]. }
  destruct (toString h (apiUrl st)) as [e|base].
  { eexists. split; [reflexivity | right; now split]. }
  destruct (completionResult _) as [v|e].
  - exists v. split; [reflexivity | now left].
  - eexists. split; [reflexivity | right; now split].
Qed.

(** X14.  When the completion call for the routed model answers with a
    non-success status, the response still names the fallback model, and
    its reasoning reports the completion error under the words "routing
    error". *)
Theorem completion_failure_reported_as_routing_error
        (h : Host) (request : RoutingRequest) (st st1 : State) (base key : string)
        (r r2 : Response) (result model : value) :
  ensureCredentials h st = (Return tt, st1) ->
  toString h (apiUrl st1) = inr base ->
  toString h (apiKey st1) = inr key ->
  fetch h (sent st1) (routeMessage base key request) = inr r ->
  ok r = true ->
  json r = inr result ->
  get_prop result "selected_model" = inr model ->
  fetch h (sent st1 ++ [routeMessage base key request])
        (completionMessage base key model request) = inr r2 ->
  ok r2 = false ->
  decision_of (fst (routeRequest h request st))
  = Some (VStr "gpt-3.5-turbo", VNum 0.001%float, VNum 0.5%float,
          VStr ("Fallback due to routing error: Error: LLM API error "
                ++ decimal (status r2) ++ ": " ++ text r2)).
Proof.
  intros Hc Hu Hk Hf Hok Hj Hm Hf2 Hok2.
  assert (He : execute h model request (record_sent (routeMessage base key request) st1)
               = (Throw (Error ("LLM API error " ++ decimal (status r2)
                                ++ ": " ++ text r2)),
                  record_sent (completionMessage base key model request)
                              (record_sent (routeMessage base key request) st1))).
  { rewrite execute_cases. cbn [apiKey apiUrl sent record_sent].
    rewrite Hk, Hu, Hf2. unfold completionResult. now rewrite Hok2. }
  pose proof (execution_failed h request key st1 base r result model _ _
                Hu Hf Hok Hj Hm He) as Hfail.
  apply routeAndExecute_throws in Hfail.
  rewrite (routeRequest_fallback h request st st1 key _ _ Hc Hk Hfail).
  destruct (fallbackResponse_returns h request
              (Error ("LLM API error " ++ decimal (status r2) ++ ": " ++ text r2))
              (record_sent (completionMessage base key model request)
                           (record_sent (routeMessage base key request) st1)))
    as (resp & st3 & -> & Hd & _).
  cbn [fst decision_of]. unfold decision in Hd. now rewrite Hd.
Qed.

Lemma completion_failure_reported_as_routing_error_witness :
  decision_of (fst (routeRequest Examples.completions_down (Examples.ask "hello")
                                 new_DeimosRouter))
  = Some (VStr "gpt-3.5-turbo", VNum 0.001%float, VNum 0.5%float,
          VStr "Fallback due to routing error: Error: LLM API error 503: overloaded").
Proof.
  apply (completion_failure_reported_as_routing_error
           Examples.completions_down (Examples.ask "hello") new_DeimosRouter
           Examples.credentialed Examples.base "sk-test"
           (mkResponse 200 "" (inr (VObj [("selected_model", VStr "gpt-4o")])))
           (mkResponse 503 "overloaded"
                       (inl (mkError "SyntaxError" "Unexpected token")))
           (VObj [("selected_model", VStr "gpt-4o")]) (VStr "gpt-4o"));
    reflexivity.
Defined.

(** X15.  A success response of the completion endpoint whose body has no
    [choices], a [null] one or an empty list makes the completion call throw
    a [TypeError]; it does not return [undefined]. *)
Theorem missing_choices_throw
        (h : Host) (model : value) (request : RoutingRequest) (st : State)
        (base key : string) (r : Response) (result choices : value) :
  toString h (apiUrl st) = inr base ->
  toString h (apiKey st) = inr key ->
  fetch h (sent st) (completionMessage base key model request) = inr r ->
  ok r = true ->
  json r = inr result ->
  get_prop result "choices" = inr choices ->
  choices = VUndefined \/ choices = VNull \/ choices = VArr [] ->
  exists msg,
    execute h model request st
    = (Throw (TypeError msg),
       record_sent (completionMessage base key model request) st).
Proof.
  intros Hu Hk Hf Hok Hj Hch Hcases.
  rewrite execute_cases, Hk, Hu, Hf. unfold completionResult, read_content.
  rewrite Hok. cbn [negb]. rewrite Hj, Hch.
  destruct Hcases as [-> | [-> | ->]]; eexists; reflexivity.
Qed.

Lemma missing_choices_throw_witness :
  exists msg,
    execute (Examples.routed VNull (inr (mkResponse 200 "" (inr (VObj [])))))
            (VStr "gpt-4o") (Examples.ask "hello") Examples.credentialed
    = (Throw (TypeError msg),
       record_sent (completionMessage Examples.base "sk-test" (VStr "gpt-4o")
                                      (Examples.ask "hello"))
                   Examples.credentialed).
Proof.
  apply (missing_choices_throw
           (Examples.routed VNull (inr (mkResponse 200 "" (inr (VObj [])))))
           (VStr "gpt-4o") (Examples.ask "hello") Examples.credentialed
           Examples.base "sk-test"
           (mkResponse 200 "" (inr (VObj []))) (VObj []) VUndefined);
    try reflexivity.
  now left.
Defined.

(** X16.  The placeholder is the 26 characters of its opening, at most 100
    characters of the prompt and three dots: never longer than 129. *)
Theorem placeholder_length (request : RoutingRequest) :
  String.length (placeholder request)
  = 29 + Nat.min 100 (String.length (prompt request))
  /\ String.length (placeholder request) <= 129.
Proof.
  assert (Hlen : String.length (placeholder request)
                 = 29 + Nat.min 100 (String.length (prompt request))).
  { unfold placeholder. rewrite !length_append, substring_to_length. cbn.
    rewrite Nat.add_comm. reflexivity. }
  split; [exact Hlen|]. rewrite Hlen.
  apply (Nat.add_le_mono_l _ 100 29), Nat.le_min_l.
Qed.

(** X17.  A prompt of at most 100 characters appears whole in the
    placeholder, and the three dots follow it all the same. *)
Theorem placeholder_of_short_prompt (request : RoutingRequest) :
  String.length (prompt request) <= 100 ->
  placeholder request = "Error processing request: " ++ prompt request ++ "...".
Proof.
  intros Hshort. unfold placeholder. now rewrite substring_to_short.
Qed.

Lemma placeholder_of_short_prompt_witness :
  placeholder (Examples.ask "") = "Error processing request: ...".
Proof.
  apply (placeholder_of_short_prompt (Examples.ask "")).
  apply Nat.le_0_l.
Defined.

(** X18.  The routing payload, unlike the completion payload, carries every
    optional field the caller gave, an empty context and a zero max-tokens
    included, and always carries a cost priority. *)
Theorem routing_payload_keeps_given_fields
        (base key : string) (request : RoutingRequest) :
  has_prop "context" (body (routeMessage base key request))
  = provided (context request)
  /\ has_preference "max_tokens" (body (routeMessage base key request))
     = provided (maxTokens request)
  /\ has_preference "temperature" (body (routeMessage base key request))
     = provided (temperature request)
  /\ has_preference "cost_priority" (body (routeMessage base key request)) = true
  /\ get_prop (body (routeMessage base key request)) "context"
     = inr (of_string (context request))
  /\ preference "max_tokens" (body (routeMessage base key request))
     = inr (JSON_stringify (of_number (maxTokens request))).
Proof.
  unfold routeMessage, POST, routePayload. cbn [body].
  destruct request as [t p c m tm cp].
  cbn [taskType prompt context maxTokens temperature costPriority].
  destruct c as [c|]; destruct m as [n|]; destruct tm as [x|]; destruct cp as [y|];
    repeat split; reflexivity.
Qed.

(** ** Credentials that do not print *)

(** X19.  A key that is an object with an own [toString] property, as a
    secrets file can hold, cannot be put in the bearer header: the header
    template throws before the [try] block, so [routeRequest] throws that
    error and sends nothing. *)
Theorem unprintable_key_leaves_routeRequest
        (h : Host) (request : RoutingRequest) (st : State)
        (props kprops : list (string * value)) :
  credentials_set st = false ->
  readJSON h (projectSecretsPath h) = Some (VObj props) ->
  lookup "api_key" props = VObj kprops ->
  has_own "toString" kprops = true ->
  routeRequest h request st
  = (Throw (TypeError "Cannot convert object to primitive value"),
     with_credentials (lookup "api_url" props) (VObj kprops) st).
Proof.
  intros Hunset Hfile Hkey Hown.
  rewrite routeRequest_unfold, (ensureCredentials_loads h st Hunset).
  rewrite loadCredentials_cases. unfold secrets_in. rewrite Hfile.
  cbn [get_prop with_credentials apiKey]. rewrite Hkey.
  cbn [toString]. now rewrite Hown.
Qed.

Lemma unprintable_key_leaves_routeRequest_witness :
  routeRequest Examples.opaque_key_host (Examples.ask "hello") new_DeimosRouter
  = (Throw (TypeError "Cannot convert object to primitive value"),
     mkState (VStr Examples.base) Examples.opaque_doc [] []).
Proof.
  apply (unprintable_key_leaves_routeRequest
           Examples.opaque_key_host (Examples.ask "hello") new_DeimosRouter
           [("api_url", VStr Examples.base); ("api_key", Examples.opaque_doc)]
           [("toString", VNum 1%float)]);
    reflexivity.
Defined.

(** X20.  A URL that does not print, under a key that does, makes both the
    routing call and the retry throw before anything is sent: the response
    is the fallback decision whose reasoning quotes the conversion error,
    with the placeholder as text. *)
Theorem unprintable_url_gives_placeholder
        (h : Host) (request : RoutingRequest) (st st1 : State)
        (key : string) (e : error) :
  ensureCredentials h st = (Return tt, st1) ->
  toString h (apiKey st1) = inr key ->
  toString h (apiUrl st1) = inl e ->
  routeRequest h request st
  = (Return (mkRoutingResponse
               (VStr "gpt-3.5-turbo") (VNum 0.001%float) (VNum 0.5%float)
               (VStr ("Fallback due to routing error: " ++ error_toString e))
               (VStr ("Error processing request: "
                      ++ substring_to 100 (prompt request) ++ "..."))),
     st1).
Proof.
  intros Hc Hk Hu.
  rewrite (routeRequest_fallback h request st st1 key e st1 Hc Hk
             (proj2 (routeAndExecute_throws h request key st1 e st1)
                    (routing_url_unprintable h request key st1 e Hu))).
  unfold fallbackResponse, bind.
  rewrite fallbackRequest_cases, execute_cases, Hk, Hu. reflexivity.
Qed.

Lemma unprintable_url_gives_placeholder_witness :
  routeRequest Examples.opaque_url_host (Examples.ask "hello") new_DeimosRouter
  = (Return (mkRoutingResponse
               (VStr "gpt-3.5-turbo") (VNum 0.001%float) (VNum 0.5%float)
               (VStr ("Fallback due to routing error: "
                      ++ "TypeError: Cannot convert object to primitive value"))
               (VStr "Error processing request: hello...")),
     mkState Examples.opaque_doc (VStr "sk-test") [] []).
Proof.
  apply (unprintable_url_gives_placeholder
           Examples.opaque_url_host (Examples.ask "hello") new_DeimosRouter
           (mkState Examples.opaque_doc (VStr "sk-test") [] [])
           "sk-test" (TypeError "Cannot convert object to primitive value"));
    reflexivity.
Defined.
